(** * generate_map.py: the region map generator

    A shallow embedding of [src/generate_map.py] and the properties of its
    three stages: the source resolver [fetch_regions_geojson], the metadata
    enricher [enrich_regions_metadata] and the pure parts of the renderer
    [build_map] (the colour policy [density_color] and the click target).

    Python values are the JSON values [requests] decodes; a [float] is an
    IEEE-754 binary64 number, taken from the Standard Library's executable
    specification [SpecFloat] at precision 53; a [dict] with [str] keys is a
    [gmap string]; an exception is a value of the error monad [result].

    The code updates the decoded collection in place. A value decoded from
    JSON is a tree, no object is reachable twice, so an update in place is
    modelled by the updated value; an exception that leaves a function
    discards what the function had updated so far, as no caller looks at the
    collection again. *)

From Stdlib Require Import ZArith String Ascii List Bool Lia.
From Stdlib Require Import Floats.SpecFloat.
From stdpp Require Import gmap strings list fin_maps.

Set Warnings "-register-all".
Local Open Scope string_scope.
Local Open Scope Z_scope.

(** ** Binary64 floats *)

Module Float.

Definition prec : Z := 53.
Definition emax : Z := 1024.

Definition float := spec_float.

Definition div : float -> float -> float := SFdiv prec emax.
Definition ltb : float -> float -> bool := SFltb.
Definition leb : float -> float -> bool := SFleb.
Definition compare : float -> float -> option comparison := SFcompare.

(** The nearest float to an integer, ties to even: the value of a Python
    integer literal used where a float is expected, and of [float(n)] when
    it does not overflow. *)
Definition of_Z (z : Z) : float := binary_normalize prec emax z 0 false.

(** An integer as an exact, unnormalised mantissa. [div] rounds the exact
    quotient of two such numbers once, whatever their size. *)
Definition exact (z : Z) : float :=
  match z with
  | Z0 => S754_zero false
  | Zpos p => S754_finite false p 0
  | Zneg p => S754_finite true p 0
  end.

(** The decimal literal [digits * 10^-places], correctly rounded, as the
    Python parser reads it: [dec 49999 3] is the literal [49.999]. *)
Definition dec (digits : Z) (places : N) : float :=
  div (exact digits) (exact (10 ^ Z.of_N places)).

Definition is_zero (x : float) : bool :=
  match x with S754_zero _ => true | _ => false end.

Definition is_nan (x : float) : bool :=
  match x with S754_nan => true | _ => false end.

Definition is_inf (x : float) : bool :=
  match x with S754_infinity _ => true | _ => false end.

(** [num / den] rounded to the nearest integer, ties to the even one. *)
Definition round_half_even (num den : Z) : Z :=
  let q := num / den in
  let r := num mod den in
  match Z.compare (2 * r) den with
  | Lt => q
  | Gt => q + 1
  | Eq => if Z.even q then q else q + 1
  end.

(** [round(x, ndigits)] for [ndigits >= 0]: CPython rounds the exact binary
    value of [x] to [ndigits] decimals, ties to even, and reads the decimal
    string back as the nearest float. Zeros, infinities and NaN round to
    themselves; the sign of a result rounded to zero is kept. *)
Definition round (x : float) (ndigits : N) : float :=
  match x with
  | S754_finite s m e =>
      let p := 10 ^ Z.of_N ndigits in
      let num := Zpos m * p * 2 ^ Z.max e 0 in
      let den := 2 ^ Z.max (- e) 0 in
      match round_half_even num den with
      | Zpos k => div (S754_finite s k 0) (exact p)
      | _ => S754_zero s
      end
  | _ => x
  end.

End Float.

Abbreviation float := Float.float.

Declare Scope float_scope.
Delimit Scope float_scope with flt.
Infix "<?" := Float.ltb : float_scope.
Infix "<=?" := Float.leb : float_scope.
Infix "/" := Float.div : float_scope.

(** ** Python values, exceptions *)

Inductive pyval :=
| PyNone
| PyBool (b : bool)
| PyInt (z : Z)
| PyFloat (f : float)
| PyStr (s : string)
| PyList (l : list pyval)
| PyDict (d : gmap string pyval).

Inductive exn_class :=
| RequestException  (* requests: connection errors, timeouts *)
| HTTPError         (* raise_for_status *)
| JSONDecodeError   (* r.json() *)
| AttributeError
| TypeError
| ValueError
| KeyError
| OverflowError
| ZeroDivisionError.

(** An exception: its class and [str(e)]. *)
Record exn := mkExn { exn_cls : exn_class; exn_str : string }.

Inductive result (A : Type) :=
| Ok (a : A)
| Raise (e : exn).
Arguments Ok {A} a.
Arguments Raise {A} e.

Definition bind {A B} (r : result A) (k : A -> result B) : result B :=
  match r with
  | Ok a => k a
  | Raise e => Raise e
  end.

Notation "x <- r ;; k" := (bind r (fun x => k))
  (at level 100, r at next level, right associativity).

(** [map_result f l]: run [f] on the elements from left to right, stop at the first
    exception. *)
Fixpoint map_result {A B} (f : A -> result B) (l : list A) : result (list B) :=
  match l with
  | [] => Ok []
  | a :: l' => b <- f a ;; bs <- map_result f l' ;; Ok (b :: bs)
  end.

(** [type(v).__name__] *)
Definition type_name (v : pyval) : string :=
  match v with
  | PyNone => "NoneType"
  | PyBool _ => "bool"
  | PyInt _ => "int"
  | PyFloat _ => "float"
  | PyStr _ => "str"
  | PyList _ => "list"
  | PyDict _ => "dict"
  end.

(** Truth value of an object, as [if v:] and [v or w] test it. *)
Definition truthy (v : pyval) : bool :=
  match v with
  | PyNone => false
  | PyBool b => b
  | PyInt z => negb (z =? 0)
  | PyFloat f => negb (Float.is_zero f)
  | PyStr s => negb (String.eqb s "")
  | PyList l => match l with [] => false | _ => true end
  | PyDict d => match map_to_list d with [] => false | _ => true end
  end.

(** [a or b] *)
Definition py_or (a b : pyval) : pyval := if truthy a then a else b.

(** [d.get(k)] and [d.get(k, dflt)] on a dict. *)
Definition dict_get (d : gmap string pyval) (k : string) : pyval :=
  default PyNone (d !! k).

Definition dict_get_or (d : gmap string pyval) (k : string) (dflt : pyval) : pyval :=
  default dflt (d !! k).

(** [v.get]: only a dict has the method. *)
Definition no_attribute (v : pyval) (attr : string) : exn :=
  mkExn AttributeError ("'" +:+ type_name v +:+ "' object has no attribute '" +:+ attr +:+ "'").

(** [float(n)] on an int. *)
Definition float_of_int (z : Z) : result float :=
  match Float.of_Z z with
  | S754_infinity _ => Raise (mkExn OverflowError "int too large to convert to float")
  | f => Ok f
  end.

(** [a / b] on two ints: the exact quotient, rounded once. *)
Definition int_truediv (a b : Z) : result float :=
  if b =? 0 then Raise (mkExn ZeroDivisionError "division by zero")
  else match Float.div (Float.exact a) (Float.exact b) with
       | S754_infinity _ =>
           Raise (mkExn OverflowError "integer division result too large for a float")
       | f => Ok f
       end.

(** [a / b] on an int and a float. *)
Definition int_div_float (a : Z) (b : float) : result float :=
  x <- float_of_int a ;;
  if Float.is_zero b then Raise (mkExn ZeroDivisionError "float division by zero")
  else Ok (x / b)%flt.

(** Substring test, the meaning of [k in s] on two strings. *)
Fixpoint str_contains (needle hay : string) : bool :=
  if String.prefix needle hay then true
  else match hay with
       | EmptyString => false
       | String _ hay' => str_contains needle hay'
       end.

(** The characters of a UTF-8 string: a byte [10xxxxxx] continues the
    character before it. *)
Definition utf8_continuation (c : ascii) : bool :=
  let n := N_of_ascii c in (128 <=? n)%N && (n <? 192)%N.

Definition continues (s : string) : bool :=
  match s with
  | String c _ => utf8_continuation c
  | EmptyString => false
  end.

Fixpoint utf8_chars (s : string) : list string :=
  match s with
  | EmptyString => []
  | String c s' =>
      match utf8_chars s' with
      | ch :: chs =>
          if continues s' then String c ch :: chs
          else String c EmptyString :: ch :: chs
      | [] => [String c EmptyString]
      end
  end.

(** [for x in v]: the items the loop visits. The keys of a dict come in
    insertion order in Python; every use below treats all keys alike. *)
Definition py_iter (v : pyval) : result (list pyval) :=
  match v with
  | PyList l => Ok l
  | PyStr s => Ok (PyStr <$> utf8_chars s)
  | PyDict d => Ok (PyStr <$> (fst <$> map_to_list d))
  | _ => Raise (mkExn TypeError ("'" +:+ type_name v +:+ "' object is not iterable"))
  end.

Definition is_str (k : string) (v : pyval) : bool :=
  match v with PyStr s => String.eqb s k | _ => false end.

(** [k in v] for a str [k] *)
Definition py_contains (k : string) (v : pyval) : result bool :=
  match v with
  | PyDict d => Ok (bool_decide (is_Some (d !! k)))
  | PyStr s => Ok (str_contains k s)
  | PyList l => Ok (existsb (is_str k) l)
  | _ => Raise (mkExn TypeError ("argument of type '" +:+ type_name v +:+ "' is not iterable"))
  end.

(** [v[k]] for a str [k] *)
Definition py_getitem (v : pyval) (k : string) : result pyval :=
  match v with
  | PyDict d =>
      match d !! k with
      | Some x => Ok x
      | None => Raise (mkExn KeyError ("'" +:+ k +:+ "'"))
      end
  | PyStr _ => Raise (mkExn TypeError "string indices must be integers, not 'str'")
  | PyList _ => Raise (mkExn TypeError "list indices must be integers or slices, not str")
  | _ => Raise (mkExn TypeError ("'" +:+ type_name v +:+ "' object is not subscriptable"))
  end.

(** [v[k] = x] for a str [k] *)
Definition py_setitem (v : pyval) (k : string) (x : pyval) : result pyval :=
  match v with
  | PyDict d => Ok (PyDict (<[k := x]> d))
  | PyList _ => Raise (mkExn TypeError "list indices must be integers or slices, not str")
  | _ => Raise (mkExn TypeError
                  ("'" +:+ type_name v +:+ "' object does not support item assignment"))
  end.

(** [for feat in d.get("features", []): body(feat)], where [body] updates
    [feat] in place: the features of a list are replaced by their updated
    versions; the items of any other iterable are temporaries. *)
Definition for_features (body : pyval -> result pyval) (d : gmap string pyval)
  : result (gmap string pyval) :=
  match d !! "features" with
  | None => Ok d
  | Some (PyList feats) =>
      feats' <- map_result body feats ;; Ok (<["features" := PyList feats']> d)
  | Some v => items <- py_iter v ;; _ <- map_result body items ;; Ok d
  end.

(** [feat.get("properties", {}) or {}] *)
Definition properties_of (fd : gmap string pyval) : pyval :=
  py_or (dict_get_or fd "properties" (PyDict ∅)) (PyDict ∅).

(** ** Source resolver: [fetch_regions_geojson] *)

(** What one [requests.get(url, timeout=30)] leads to inside the [try]:
    the call itself raises, [raise_for_status()] raises, [r.json()] raises,
    or the body decodes to a value. *)
Inductive response :=
| NoResponse (e : exn)
| BadStatus (e : exn)
| NotJson (e : exn)
| Json (data : pyval).

(** The remote world of one run: what each URL answers. *)
Definition network := string -> response.

(** [r = requests.get(url, timeout=30); r.raise_for_status(); data = r.json()] *)
Definition get_json (r : response) : result pyval :=
  match r with
  | NoResponse e | BadStatus e | NotJson e => Raise e
  | Json data => Ok data
  end.

Definition candidate_urls : list string :=
  [ "https://geo.api.gouv.fr/regions?format=geojson&geometry=contour&projection=WGS84";
    "https://geo.api.gouv.fr/regions?format=geojson&geometry=contours&projection=WGS84";
    "https://geo.api.gouv.fr/regions?format=geojson&geometry=contour";
    "https://geo.api.gouv.fr/regions?format=geojson&geometry=contours";
    "https://geo.api.gouv.fr/regions?format=geojson";
    "https://geo.api.gouv.fr/regions?projection=WGS84&format=geojson" ].

Definition fallbacks : list string :=
  [ "https://france-geojson.gregoiredavid.fr/repo/regions.geojson";
    "https://raw.githubusercontent.com/gregoiredavid/france-geojson/master/regions.geojson" ].

(** [isinstance(data, dict) and data.get("features")] *)
Definition has_features (data : pyval) : bool :=
  match data with
  | PyDict d => truthy (dict_get d "features")
  | _ => false
  end.

(** The inner loop of the normalisation:
    [for key in ("code_insee", "code_region", "id"):
         if key in props: props["code"] = props[key]; break] *)
Fixpoint copy_code (keys : list string) (props : pyval) : result pyval :=
  match keys with
  | [] => Ok props
  | key :: keys' =>
      present <- py_contains key props ;;
      if (present : bool) then v <- py_getitem props key ;; py_setitem props "code" v
      else copy_code keys' props
  end.

(** The body of the normalisation loop on one feature of a fallback source. *)
Definition normalize_feature (feat : pyval) : result pyval :=
  match feat with
  | PyDict fd =>
      let props := properties_of fd in
      has_nom <- py_contains "nom" props ;;
      props <- (if negb has_nom
                then has_name <- py_contains "name" props ;;
                     if (has_name : bool)
                     then v <- py_getitem props "name" ;; py_setitem props "nom" v
                     else Ok props
                else Ok props) ;;
      has_code <- py_contains "code" props ;;
      props <- (if negb has_code
                then copy_code ["code_insee"; "code_region"; "id"] props
                else Ok props) ;;
      Ok (PyDict (<["properties" := props]> fd))
  | _ => Raise (no_attribute feat "get")
  end.

Definition normalize (d : gmap string pyval) : result (gmap string pyval) :=
  for_features normalize_feature d.

(** How the [try] block of one candidate ends: [return data], an exception
    caught by [except Exception], or the end of the block with nothing
    returned and nothing raised. *)
Inductive attempt :=
| Success (data : pyval)
| Failure (e : exn)
| NoFeatures.

Definition try_primary (r : response) : attempt :=
  match get_json r with
  | Raise e => Failure e
  | Ok data => if has_features data then Success data else NoFeatures
  end.

Definition try_fallback (r : response) : attempt :=
  match get_json r with
  | Raise e => Failure e
  | Ok (PyDict d) =>
      if truthy (dict_get d "features")
      then match normalize d with
           | Ok d' => Success (PyDict d')
           | Raise e => Failure e
           end
      else NoFeatures
  | Ok _ => NoFeatures
  end.

(** The resolver's variables: [last_err], and the requests sent so far, in
    order. *)
Record resolver := mkResolver {
  last_err : option exn;
  contacted : list string
}.

Definition contact (url : string) (s : resolver) : resolver :=
  mkResolver (last_err s) (contacted s ++ [url]).

Definition record_err (e : exn) (s : resolver) : resolver :=
  mkResolver (Some e) (contacted s).

(** One [for url in ...: try: ... except Exception as e: last_err = e; continue]
    loop. *)
Fixpoint try_urls (try : response -> attempt) (net : network) (urls : list string)
    (s : resolver) : option pyval * resolver :=
  match urls with
  | [] => (None, s)
  | url :: urls' =>
      let s := contact url s in
      match try (net url) with
      | Success data => (Some data, s)
      | Failure e => try_urls try net urls' (record_err e s)
      | NoFeatures => try_urls try net urls' s
      end
  end.

(** How the call ends: a returned collection or [raise SystemExit(msg)]. *)
Inductive outcome :=
| Returned (data : pyval)
| SystemExit (msg : string).

(** [f"{last_err}"] *)
Definition str_of_err (e : option exn) : string :=
  match e with
  | Some e => exn_str e
  | None => "None"
  end.

Definition exhausted_msg : string :=
  "Impossible de récupérer les régions (geo.api.gouv.fr et sources de secours indisponibles). "
  +:+ "Dernière erreur: ".

Definition fetch_regions_geojson (net : network) : outcome * resolver :=
  match try_urls try_primary net candidate_urls (mkResolver None []) with
  | (Some data, s) => (Returned data, s)
  | (None, s) =>
      match try_urls try_fallback net fallbacks s with
      | (Some data, s) => (Returned data, s)
      | (None, s) => (SystemExit (exhausted_msg +:+ str_of_err (last_err s)), s)
      end
  end.

(** What the interpreter does when the call's outcome reaches the top level
    ([main] catches nothing): an uncaught [SystemExit] with a message writes
    the message and a newline to the standard error and ends the process
    with status 1; after a return the run goes on to [build_map]. *)
Definition exit_status (o : outcome) : option Z :=
  match o with
  | Returned _ => None
  | SystemExit _ => Some 1
  end.

Definition newline : string := String (ascii_of_N 10) EmptyString.

Definition stderr (o : outcome) : string :=
  match o with
  | Returned _ => ""
  | SystemExit msg => msg +:+ newline
  end.

(** *** The two loops as one *)

(** The candidates in the order they are tried, each with its tier. *)
Inductive tier := Primary | Fallback.

Definition try_tier (t : tier) : response -> attempt :=
  match t with
  | Primary => try_primary
  | Fallback => try_fallback
  end.

Definition candidates : list (tier * string) :=
  (pair Primary <$> candidate_urls) ++ (pair Fallback <$> fallbacks).

Definition attempt_of (net : network) (c : tier * string) : attempt :=
  try_tier (fst c) (net (snd c)).

Definition succeeded (a : attempt) : bool :=
  match a with
  | Success _ => true
  | _ => false
  end.

(** The exception of the last attempt that raised one, [acc] if none did. *)
Fixpoint last_failure (acc : option exn) (l : list attempt) : option exn :=
  match l with
  | [] => acc
  | Failure e :: l' => last_failure (Some e) l'
  | _ :: l' => last_failure acc l'
  end.

(** One loop over tiered candidates, to be compared with the two loops of
    [fetch_regions_geojson]. *)
Fixpoint try_candidates (net : network) (cs : list (tier * string)) (s : resolver)
  : option pyval * resolver :=
  match cs with
  | [] => (None, s)
  | (t, url) :: cs' =>
      let s := contact url s in
      match try_tier t (net url) with
      | Success data => (Some data, s)
      | Failure e => try_candidates net cs' (record_err e s)
      | NoFeatures => try_candidates net cs' s
      end
  end.

Definition finish (r : option pyval * resolver) : outcome * resolver :=
  match r with
  | (Some data, s) => (Returned data, s)
  | (None, s) => (SystemExit (exhausted_msg +:+ str_of_err (last_err s)), s)
  end.

(** A feature as GeoJSON has it: an object whose "properties" are an object,
    null or absent. *)
Definition geojson_feature (feat : pyval) : bool :=
  match feat with
  | PyDict fd =>
      match properties_of fd with
      | PyDict _ => true
      | _ => false
      end
  | _ => false
  end.

(** *** Remote worlds for the scenarios *)

Definition timed_out : exn := mkExn RequestException "Read timed out.".

(** No server answers. *)
Definition unreachable : network := fun _ => NoResponse timed_out.

(** Every server answers with the JSON object [{}]. *)
Definition empty_bodies : network := fun _ => Json (PyDict ∅).

(** Only the given URL answers, with the given body. *)
Definition only (url : string) (body : pyval) : network :=
  fun u => if String.eqb u url then Json body else NoResponse timed_out.

(** ** Metadata enricher: [enrich_regions_metadata] *)

(** An entry of the table: [{"population": ..., "surface_km2": ...}]. *)
Record meta := mkMeta { population : Z; surface_km2 : Z }.

Definition mapping_items : list (string * meta) :=
  [ ("Île-de-France", mkMeta 12271794 12012);
    ("Auvergne-Rhône-Alpes", mkMeta 8078271 69711);
    ("Nouvelle-Aquitaine", mkMeta 6073000 84036);
    ("Occitanie", mkMeta 5999000 72724);
    ("Grand Est", mkMeta 5549000 57441);
    ("Hauts-de-France", mkMeta 6006000 31813);
    ("Provence-Alpes-Côte d'Azur", mkMeta 5098000 31400);
    ("Pays de la Loire", mkMeta 3883000 32082);
    ("Bretagne", mkMeta 3420000 27208);
    ("Centre-Val de Loire", mkMeta 2573000 39151);
    ("Bourgogne-Franche-Comté", mkMeta 2807000 47784);
    ("Normandie", mkMeta 3330000 29906);
    ("Corse", mkMeta 351000 8680);
    ("Guadeloupe", mkMeta 376000 1628);
    ("Martinique", mkMeta 353000 1128);
    ("Guyane", mkMeta 294000 83846);
    ("La Réunion", mkMeta 859000 2512);
    ("Mayotte", mkMeta 310000 376) ].

Definition mapping : gmap string meta := list_to_map mapping_items.

(** [sum(v["population"] for v in mapping.values())] *)
Definition total_pop : Z :=
  foldr Z.add 0 (population <$> (snd <$> map_to_list mapping)).

(** [mapping.get(name)]: a list or a dict cannot be hashed; any other value
    that is not a str equals no key. *)
Definition mapping_get (name : pyval) : result (option meta) :=
  match name with
  | PyStr s => Ok (mapping !! s)
  | PyList _ | PyDict _ =>
      Raise (mkExn TypeError ("unhashable type: '" +:+ type_name name +:+ "'"))
  | _ => Ok None
  end.

(** [props.get("nom") or props.get("name")] *)
Definition join_key (props : gmap string pyval) : pyval :=
  py_or (dict_get props "nom") (dict_get props "name").

(** [round(pop / surf, 1) if surf else None] *)
Definition density (pop : Z) (surf : float) : result pyval :=
  if truthy (PyFloat surf)
  then q <- int_div_float pop surf ;; Ok (PyFloat (Float.round q 1))
  else Ok PyNone.

(** The body of [if meta:], for the entry [m] and the denominator [total]. *)
Definition set_metadata (total : Z) (m : meta) (props : gmap string pyval)
  : result (gmap string pyval) :=
  let pop := population m in
  surf <- float_of_int (surface_km2 m) ;;
  dens <- density pop surf ;;
  let props := <["population" := PyInt pop]> props in
  let props := <["surface_km2" := PyFloat surf]> props in
  let props := <["densite_km2" := dens]> props in
  if truthy (PyInt total)
  then share <- int_truediv (100 * pop) total ;;
       Ok (<["part_population_pct" := PyFloat (Float.round share 2)]> props)
  else Ok props.

(** The body of the loop on one feature. *)
Definition enrich_feature (feat : pyval) : result pyval :=
  match feat with
  | PyDict fd =>
      match properties_of fd with
      | PyDict props =>
          found <- mapping_get (join_key props) ;;
          props <- match found with
                   | Some m => set_metadata total_pop m props
                   | None => Ok props
                   end ;;
          Ok (PyDict (<["properties" := PyDict props]> fd))
      | v => Raise (no_attribute v "get")
      end
  | _ => Raise (no_attribute feat "get")
  end.

Definition enrich_regions_metadata (geojson : gmap string pyval)
  : result (gmap string pyval) :=
  for_features enrich_feature geojson.

(** ** Map renderer: the colour policy and the click target of [build_map] *)

Section Renderer.

(** [float(s)] on a str is CPython's parser: [None] where it raises
    [ValueError]. *)
Variable float_of_str : string -> option float.

(** [float(d)] *)
Definition py_float (d : pyval) : result float :=
  match d with
  | PyFloat f => Ok f
  | PyInt z => float_of_int z
  | PyBool b => Ok (Float.of_Z (if b then 1 else 0))
  | PyStr s =>
      match float_of_str s with
      | Some f => Ok f
      | None => Raise (mkExn ValueError ("could not convert string to float: '" +:+ s +:+ "'"))
      end
  | _ => Raise (mkExn TypeError
                  ("float() argument must be a string or a real number, not '"
                   +:+ type_name d +:+ "'"))
  end.

(** The chain of comparisons on a float. *)
Definition bucket_color (d : float) : string :=
  if (d <? Float.of_Z 50)%flt then "#D4EEFF"
  else if (d <? Float.of_Z 100)%flt then "#9BD1FF"
  else if (d <? Float.of_Z 150)%flt then "#6FB2FF"
  else if (d <? Float.of_Z 250)%flt then "#3D7CFF"
  else if (d <? Float.of_Z 500)%flt then "#2E6EEA"
  else "#1F4DBF".

Definition density_color (d : pyval) : result string :=
  match py_float d with
  | Ok d => Ok (bucket_color d)
  | Raise e =>
      match exn_cls e with
      | TypeError | ValueError => Ok "#2E6EEA"
      | _ => Raise e
      end
  end.

(** [style_function]: the fill colour comes from
    [(feature.get("properties") or {}).get("densite_km2")]. *)
Definition style_function (feature : gmap string pyval) : result (gmap string pyval) :=
  match py_or (dict_get feature "properties") (PyDict ∅) with
  | PyDict props =>
      fill <- density_color (dict_get props "densite_km2") ;;
      Ok (<["fillColor" := PyStr fill]>
          (<["color" := PyStr "#1F4DBF"]>
           (<["weight" := PyInt 1]>
            (<["fillOpacity" := PyFloat (Float.dec 35 2)]> ∅))))
  | v => Raise (no_attribute v "get")
  end.

End Renderer.

(** *** The click handler of the embedded script *)

(** The characters [encodeURIComponent] leaves as they are. *)
Definition uri_unreserved (c : ascii) : bool :=
  let n := N_of_ascii c in
  ((65 <=? n) && (n <=? 90) || (97 <=? n) && (n <=? 122) || (48 <=? n) && (n <=? 57))%N
  || existsb (Ascii.eqb c) (list_ascii_of_string "-_.!~*'()").

Definition hex_digit (n : N) : ascii :=
  nth (N.to_nat n) (list_ascii_of_string "0123456789ABCDEF") "0"%char.

(** [%XX] for one byte of the UTF-8 encoding. *)
Definition pct_byte (c : ascii) : string :=
  let n := N_of_ascii c in
  String "%" (String (hex_digit (n / 16)) (String (hex_digit (n mod 16)) EmptyString)).

(** [encodeURIComponent] on a string given by its UTF-8 bytes. *)
Fixpoint encodeURIComponent (s : string) : string :=
  match s with
  | EmptyString => EmptyString
  | String c s' =>
      (if uri_unreserved c then String c EmptyString else pct_byte c)
      +:+ encodeURIComponent s'
  end.

(** [var url = "Régions/" + encodeURIComponent(nom) + ".HTML";] *)
Definition click_url (nom : string) : string :=
  "Régions/" +:+ encodeURIComponent nom +:+ ".HTML".

(** Reading a percent-encoded string back, as [decodeURIComponent] does on
    the bytes: the inverse that makes an encoding an encoding. *)
Definition hex_value (c : ascii) : option N :=
  let n := N_of_ascii c in
  if ((48 <=? n) && (n <=? 57))%N then Some (n - 48)%N
  else if ((65 <=? n) && (n <=? 70))%N then Some (n - 55)%N
  else if ((97 <=? n) && (n <=? 102))%N then Some (n - 87)%N
  else None.

Fixpoint pct_decode (s : string) : option string :=
  match s with
  | EmptyString => Some EmptyString
  | String c s' =>
      if Ascii.eqb c "%"
      then match s' with
           | String h (String l s'') =>
               match hex_value h, hex_value l, pct_decode s'' with
               | Some a, Some b, Some r => Some (String (ascii_of_N (16 * a + b)) r)
               | _, _, _ => None
               end
           | _ => None
           end
      else option_map (String c) (pct_decode s')
  end.

(** The characters a percent-encoded string is made of. *)
Definition uri_safe (c : ascii) : bool :=
  uri_unreserved c || Ascii.eqb c "%".

(** *** The guard of the click handler: [attach(layer)] *)

(** The script reads the features the page carries as JSON, those of the
    collection given to [folium.GeoJson]: a value of the script is a JSON
    value or [undefined], here [None]; a number is a JSON number; a string
    is given by the bytes of its UTF-8 encoding. *)





Section Script.

(** [String(v)] for a value that is not a string, which
    [encodeURIComponent] applies to its argument first. *)
Variable js_to_string : pyval -> string.


End Script.

(** The six colours of the legend, in the order of the buckets. *)
Definition bucket_colors : list string :=
  ["#D4EEFF"; "#9BD1FF"; "#6FB2FF"; "#3D7CFF"; "#2E6EEA"; "#1F4DBF"].

(** *** What the table gives a matched feature *)

(** Population divided by area, rounded to one decimal. *)
Definition table_density (m : meta) : float :=
  Float.round (Float.of_Z (population m) / Float.of_Z (surface_km2 m))%flt 1.

(** A hundred times the population divided by the sum of the table's
    populations, rounded to two decimals. *)
Definition table_share (m : meta) : float :=
  Float.round (Float.exact (100 * population m) / Float.exact total_pop)%flt 2.

Definition with_metadata (m : meta) (props : gmap string pyval) : gmap string pyval :=
  <["part_population_pct" := PyFloat (table_share m)]>
    (<["densite_km2" := PyFloat (table_density m)]>
       (<["surface_km2" := PyFloat (Float.of_Z (surface_km2 m))]>
          (<["population" := PyInt (population m)]> props))).

(** An entry on which no conversion or division of [set_metadata] raises
    and the area is not zero. *)
Definition regular (total : Z) (m : meta) : bool :=
  negb (total =? 0)
  && negb (Float.is_inf (Float.of_Z (surface_km2 m)))
  && negb (Float.is_zero (Float.of_Z (surface_km2 m)))
  && negb (Float.is_inf (Float.of_Z (population m)))
  && negb (Float.is_inf (Float.exact (100 * population m) / Float.exact total)%flt).

(** The features of an enriched collection, and a property of a feature. *)
Definition features_of (g : gmap string pyval) : list pyval :=
  match g !! "features" with
  | Some (PyList feats) => feats
  | _ => []
  end.

Definition property (feat : pyval) (k : string) : option pyval :=
  match feat with
  | PyDict fd =>
      match properties_of fd with
      | PyDict props => props !! k
      | _ => None
      end
  | _ => None
  end.

(** *** The end-to-end scenario: a collection of two features *)

Definition named_feature (k name : string) : gmap string pyval :=
  {[ "type" := PyStr "Feature"; "properties" := PyDict {[ k := PyStr name ]} ]}.

Definition two_features : gmap string pyval :=
  {[ "type" := PyStr "FeatureCollection";
     "features" := PyList [ PyDict (named_feature "nom" "Bretagne");
                            PyDict (named_feature "nom" "Unknown Land") ] ]}.

(** *** Reading the other functions *)

(** The part of [normalize_feature] between reading [props] and storing it
    back into the feature. *)
Definition normalize_props (props : pyval) : result pyval :=
  has_nom <- py_contains "nom" props ;;
  props <- (if negb has_nom
            then has_name <- py_contains "name" props ;;
                 if (has_name : bool)
                 then v <- py_getitem props "name" ;; py_setitem props "nom" v
                 else Ok props
            else Ok props) ;;
  has_code <- py_contains "code" props ;;
  if negb has_code
  then copy_code ["code_insee"; "code_region"; "id"] props
  else Ok props.

(** The value of the first of [keys] that is a key of [props]. *)
Fixpoint first_present (keys : list string) (props : gmap string pyval) : option pyval :=
  match keys with
  | [] => None
  | k :: keys' =>
      match props !! k with
      | Some v => Some v
      | None => first_present keys' props
      end
  end.

(** [props] with [k] set to [v] when there is a [v]. *)
Definition set_if (k : string) (v : option pyval) (props : gmap string pyval)
  : gmap string pyval :=
  match v with
  | Some v => <[k := v]> props
  | None => props
  end.

(** What the normalisation makes of a property bag that is an object: "nom"
    from the first of nom, name; "code" from the first of code, code_insee,
    code_region, id. *)
Definition normalized (props : gmap string pyval) : gmap string pyval :=
  set_if "code" (first_present ["code"; "code_insee"; "code_region"; "id"] props)
    (set_if "nom" (first_present ["nom"; "name"] props) props).

(** The features on which the body of the enricher's loop raises nothing: an
    object whose property bag is an object (or null, absent, or any false
    value) and whose join key is not a list or an object. *)
Definition enrichable (feat : pyval) : bool :=
  match feat with
  | PyDict fd =>
      match properties_of fd with
      | PyDict props =>
          match join_key props with
          | PyList _ | PyDict _ => false
          | _ => true
          end
      | _ => false
      end
  | _ => false
  end.

(** The four fields the enricher writes. *)
Definition enrichment_fields : list string :=
  ["population"; "surface_km2"; "densite_km2"; "part_population_pct"].

(** The place of a colour in the legend, from the lightest to the darkest. *)
Fixpoint index_of (c : string) (l : list string) : nat :=
  match l with
  | [] => 0%nat
  | x :: l' => if String.eqb c x then 0%nat else S (index_of c l')
  end.

Definition color_rank (c : string) : nat := index_of c bucket_colors.

(** *** The resolver read off the responses *)

(** The exception the [try] block of a candidate of tier [t] raises on the
    response [r], if it raises one: in the request, in the status check or
    in the decoding of the body and, for a fallback source, in the
    normalisation loop. *)
Definition raised (t : tier) (r : response) : option exn :=
  match r with
  | NoResponse e | BadStatus e | NotJson e => Some e
  | Json data =>
      match t, data with
      | Fallback, PyDict d =>
          if has_features data
          then match normalize d with
               | Raise e => Some e
               | Ok _ => None
               end
          else None
      | _, _ => None
      end
  end.

(** A JSON body without features: not an object, or an object whose
    "features" value is absent or false (null, an empty list, 0, ...). *)
Definition lacks_features (r : response) : bool :=
  match r with
  | Json data => negb (has_features data)
  | _ => false
  end.

(** A candidate fails when its [try] block raises or its body has no
    features. *)
Definition fails (t : tier) (r : response) : bool :=
  match raised t r with
  | Some _ => true
  | None => lacks_features r
  end.

(** The exception of the last of the candidates [cs] that raised one, [acc]
    if none did. *)
Fixpoint last_raised (net : network) (acc : option exn) (cs : list (tier * string))
  : option exn :=
  match cs with
  | [] => acc
  | (t, url) :: cs' =>
      last_raised net (match raised t (net url) with Some e => Some e | None => acc end) cs'
  end.

(** Every server answers with an empty feature collection. *)
Definition empty_collections : network :=
  fun _ => Json (PyDict {[ "type" := PyStr "FeatureCollection"; "features" := PyList [] ]}).

(** The first primary URL answers with the JSON object [{"features": "abc"}],
    every other URL with the collection of two features. *)
Definition text_features_first : network :=
  fun u =>
    if String.eqb u "https://geo.api.gouv.fr/regions?format=geojson&geometry=contour&projection=WGS84"
    then Json (PyDict {[ "features" := PyStr "abc" ]})
    else Json (PyDict two_features).

(** Only the last fallback URL answers, with a collection whose one feature
    is the number 5. *)
Definition number_feature : network :=
  only "https://raw.githubusercontent.com/gregoiredavid/france-geojson/master/regions.geojson"
       (PyDict {[ "features" := PyList [PyInt 5] ]}).

(** A primary and a fallback URL that both answer [{"features": 5}]. *)
Definition features_five (url : string) : network :=
  only url (PyDict {[ "features" := PyInt 5 ]}).

(** * Properties *)

(** ** Order on floats *)

Module FloatFacts.

Lemma compare_antisym (x y : float) :
  Float.compare y x = CompOpp <$> Float.compare x y.
Proof.
  unfold Float.compare.
  destruct x as [sx|sx| |sx mx ex], y as [sy|sy| |sy my ey]; simpl;
    try destruct sx; try destruct sy; simpl; try reflexivity.
  - rewrite (Z.compare_antisym ey ex).
    destruct (ey ?= ex); simpl; try reflexivity.
    f_equal. rewrite (Pos.compare_cont_antisym mx my Eq). reflexivity.
  - rewrite (Z.compare_antisym ey ex).
    destruct (ey ?= ex); simpl; try reflexivity.
    f_equal. rewrite (Pos.compare_cont_antisym mx my Eq). reflexivity.
Qed.

Lemma compare_lt_trans (x y z : float) :
  Float.compare x y = Some Lt -> Float.compare y z = Some Lt ->
  Float.compare x z = Some Lt.
Proof.
  unfold Float.compare.
  destruct x as [sx|sx| |sx mx ex], y as [sy|sy| |sy my ey], z as [sz|sz| |sz mz ez];
    simpl; try destruct sx; try destruct sy; try destruct sz; simpl;
    try discriminate; try reflexivity; intros Hxy Hyz; f_equal;
    injection Hxy as Hxy; injection Hyz as Hyz;
    change (Pos.compare_cont Eq) with Pos.compare in *;
    destruct (Z.compare_spec ex ey), (Z.compare_spec ey ez), (Z.compare_spec ex ez);
    try discriminate; try lia; subst;
    repeat match goal with
      | H : CompOpp _ = Lt |- _ => apply (f_equal CompOpp) in H; rewrite CompOpp_involutive in H; simpl in H
      | |- CompOpp _ = Lt => apply CompOpp_iff; simpl
      end;
    rewrite ?Pos.compare_lt_iff, ?Pos.compare_gt_iff in *; (reflexivity || lia).
Qed.

Lemma ltb_trans (x y z : float) :
  (x <? y)%flt = true -> (y <? z)%flt = true -> (x <? z)%flt = true.
Proof.
  unfold Float.ltb, SFltb. intros Hxy Hyz.
  pose proof (compare_lt_trans x y z) as H. unfold Float.compare in H.
  rewrite H; [reflexivity| |].
  - destruct (SFcompare x y) as [[]|]; congruence.
  - destruct (SFcompare y z) as [[]|]; congruence.
Qed.

Lemma compare_None (x y : float) :
  Float.compare x y = None -> Float.is_nan x || Float.is_nan y = true.
Proof.
  unfold Float.compare.
  destruct x as [sx|sx| |sx mx ex], y as [sy|sy| |sy my ey]; simpl;
    try destruct sx; try destruct sy; simpl; (discriminate || reflexivity).
Qed.

(** [t <= d] is [not (d < t)] unless one of the two is NaN. *)
Lemma leb_negb_ltb (t d : float) :
  Float.is_nan t = false ->
  (t <=? d)%flt = negb (d <? t)%flt && negb (Float.is_nan d).
Proof.
  intros Ht. unfold Float.leb, SFleb, Float.ltb, SFltb.
  pose proof (compare_antisym d t) as H. unfold Float.compare in H. rewrite H.
  destruct (SFcompare d t) as [[]|] eqn:E; simpl.
  - destruct d; simpl in *; (reflexivity || discriminate).
  - reflexivity.
  - destruct d; simpl in *; (reflexivity || discriminate).
  - apply compare_None in E. rewrite Ht, orb_false_r in E. rewrite E. reflexivity.
Qed.

End FloatFacts.

(** ** Converting an int to a float *)

Module IntFacts.

Lemma digits_bounds (p : positive) :
  2 ^ (Zpos (digits2_pos p) - 1) <= Zpos p < 2 ^ Zpos (digits2_pos p).
Proof.
  induction p as [p IH|p IH|]; cbn [digits2_pos]; [| |split; reflexivity].
  - rewrite Pos2Z.inj_succ, Z.pow_succ_r by lia.
    replace (Z.succ (Zpos (digits2_pos p)) - 1) with (Z.succ (Zpos (digits2_pos p) - 1)) by lia.
    rewrite Z.pow_succ_r by lia. lia.
  - rewrite Pos2Z.inj_succ, Z.pow_succ_r by lia.
    replace (Z.succ (Zpos (digits2_pos p)) - 1) with (Z.succ (Zpos (digits2_pos p) - 1)) by lia.
    rewrite Z.pow_succ_r by lia. lia.
Qed.

Lemma digits_shift (p k : positive) :
  digits2_pos (Pos.iter xO p k) = (digits2_pos p + k)%positive.
Proof.
  induction k as [|k IH] using Pos.peano_ind.
  - cbn. lia.
  - rewrite Pos.iter_succ. cbn [digits2_pos]. rewrite IH. lia.
Qed.

Lemma value_shift (p k : positive) :
  Zpos (Pos.iter xO p k) = Zpos p * 2 ^ Zpos k.
Proof.
  induction k as [|k IH] using Pos.peano_ind.
  - cbn [Pos.iter]. lia.
  - rewrite Pos.iter_succ, Pos2Z.inj_xO, IH, Pos2Z.inj_succ, Z.pow_succ_r by lia. lia.
Qed.

Lemma digits_small (p : positive) :
  Zpos p < 2 ^ 53 -> Zpos (digits2_pos p) <= 53.
Proof.
  intros Hp. pose proof (digits_bounds p) as [Hlo Hhi].
  destruct (Z.le_gt_cases (Zpos (digits2_pos p)) 53) as [H|H]; [exact H|].
  assert (2 ^ 53 <= 2 ^ (Zpos (digits2_pos p) - 1)) by (apply Z.pow_le_mono_r; lia). lia.
Qed.

(** A mantissa of 53 bits with an exponent between -52 and 0 is not
    rounded. *)
Lemma round_exact (s : bool) (m : positive) (e : Z) :
  Zpos (digits2_pos m) = 53 -> -52 <= e <= 0 ->
  binary_round_aux 53 1024 s (Zpos m) e loc_Exact = S754_finite s m e.
Proof.
  intros Hd He.
  unfold binary_round_aux, shr_fexp, fexp, emin.
  cbn [Zdigits2 shr_record_of_loc]. rewrite Hd.
  replace (Z.max (53 + e - 53) (3 - 1024 - 53) - e) with 0 by lia.
  cbn [shr shr_m loc_of_shr_record round_nearest_even Zdigits2 shr_record_of_loc].
  rewrite Hd.
  replace (Z.max (53 + e - 53) (3 - 1024 - 53) - e) with 0 by lia.
  cbn [shr shr_m].
  replace (e <=? 1024 - 53) with true by (symmetry; apply Z.leb_le; lia).
  reflexivity.
Qed.

(** The float of an int below 2^53 in size: the int itself, shifted to 53
    bits. *)
Lemma round_small (s : bool) (p : positive) :
  Zpos p < 2 ^ 53 ->
  exists m, binary_round 53 1024 s p 0 = S754_finite s m (Zpos (digits2_pos p) - 53) /\
            Zpos m = Zpos p * 2 ^ (53 - Zpos (digits2_pos p)).
Proof.
  intros Hp. pose proof (digits_small p Hp) as Hd.
  unfold binary_round, shl_align, fexp, emin.
  replace (Z.max (Zpos (digits2_pos p) + 0 - 53) (3 - 1024 - 53) - 0)
    with (Zpos (digits2_pos p) - 53) by lia.
  replace (Z.max (Zpos (digits2_pos p) + 0 - 53) (3 - 1024 - 53))
    with (Zpos (digits2_pos p) - 53) by lia.
  destruct (Zpos (digits2_pos p) - 53) as [|k|k] eqn:E; [|lia|].
  - exists p. assert (D : Zpos (digits2_pos p) = 53) by lia.
    rewrite (round_exact s p 0 D) by lia.
    split; [reflexivity|]. rewrite D. cbn. lia.
  - exists (Pos.iter xO p k).
    assert (D : Zpos (digits2_pos (Pos.iter xO p k)) = 53)
      by (rewrite digits_shift; lia).
    rewrite (round_exact s _ (Zneg k) D) by lia.
    split; [reflexivity|]. rewrite value_shift. f_equal. f_equal. lia.
Qed.

Lemma of_Z_small (p : positive) :
  Zpos p < 2 ^ 53 ->
  exists m, Float.of_Z (Zpos p) = S754_finite false m (Zpos (digits2_pos p) - 53) /\
            Zpos m = Zpos p * 2 ^ (53 - Zpos (digits2_pos p)).
Proof. apply (round_small false). Qed.

(** No int between -2^53 and 2^53 overflows. *)
Lemma of_Z_finite (z : Z) :
  - 2 ^ 53 < z < 2 ^ 53 -> Float.is_inf (Float.of_Z z) = false.
Proof.
  intros Hz. destruct z as [|p|p]; [reflexivity| |].
  - destruct (round_small false p ltac:(lia)) as (m & H & _).
    unfold Float.of_Z, binary_normalize, Float.prec, Float.emax. rewrite H. reflexivity.
  - destruct (round_small true p ltac:(lia)) as (m & H & _).
    unfold Float.of_Z, binary_normalize, Float.prec, Float.emax. rewrite H. reflexivity.
Qed.

(** On ints from 0 to 2^53 the conversion keeps the order. *)
Lemma compare_of_Z (a b : Z) :
  0 <= a < 2 ^ 53 -> 0 <= b < 2 ^ 53 ->
  Float.compare (Float.of_Z a) (Float.of_Z b) = Some (a ?= b).
Proof.
  intros Ha Hb.
  destruct a as [|p|p]; [| |lia]; destruct b as [|q|q]; try lia.
  - reflexivity.
  - destruct (of_Z_small q) as (m & -> & _); [lia|]. reflexivity.
  - destruct (of_Z_small p) as (m & -> & _); [lia|]. reflexivity.
  - destruct (of_Z_small p) as (m & -> & Hm); [lia|].
    destruct (of_Z_small q) as (n & -> & Hn); [lia|].
    pose proof (digits_bounds p) as [Plo Phi].
    pose proof (digits_bounds q) as [Qlo Qhi].
    pose proof (digits_small p ltac:(lia)) as Pd.
    pose proof (digits_small q ltac:(lia)) as Qd.
    unfold Float.compare, SFcompare. f_equal.
    destruct (Z.compare_spec (Zpos (digits2_pos p) - 53) (Zpos (digits2_pos q) - 53))
      as [E|E|E].
    + assert (D : Zpos (digits2_pos p) = Zpos (digits2_pos q)) by lia.
      rewrite D in Hm.
      change (Pos.compare_cont Eq m n) with (Zpos m ?= Zpos n).
      rewrite Hm, Hn.
      assert (0 < 2 ^ (53 - Zpos (digits2_pos q))) by (apply Z.pow_pos_nonneg; lia).
      destruct (Z.compare_spec (Zpos p) (Zpos q)) as [C|C|C].
      * rewrite C. apply Z.compare_refl.
      * apply Z.compare_lt_iff. nia.
      * apply Z.compare_gt_iff. nia.
    + symmetry. apply Z.compare_lt_iff.
      assert (2 ^ Zpos (digits2_pos p) <= 2 ^ (Zpos (digits2_pos q) - 1))
        by (apply Z.pow_le_mono_r; lia). lia.
    + symmetry. apply Z.compare_gt_iff.
      assert (2 ^ Zpos (digits2_pos q) <= 2 ^ (Zpos (digits2_pos p) - 1))
        by (apply Z.pow_le_mono_r; lia). lia.
Qed.

Lemma ltb_of_Z (a b : Z) :
  0 <= a < 2 ^ 53 -> 0 <= b < 2 ^ 53 ->
  (Float.of_Z a <? Float.of_Z b)%flt = (a <? b).
Proof.
  intros Ha Hb. unfold Float.ltb, SFltb.
  pose proof (compare_of_Z a b Ha Hb) as C. unfold Float.compare in C. rewrite C.
  unfold Z.ltb. destruct (a ?= b); reflexivity.
Qed.

(** *** Ints from 2^53 on *)

Lemma shr_1_m (r : shr_record) : 0 <= shr_m r -> shr_m (shr_1 r) = shr_m r / 2.
Proof.
  destruct r as [m r s]. cbn [shr_m]. intros Hm. unfold shr_1.
  destruct m as [|[p|p|]|p]; cbn [shr_m]; try lia; try reflexivity.
  - rewrite Pos2Z.inj_xI. apply Z.div_unique with (r := 1); lia.
  - rewrite Pos2Z.inj_xO. apply Z.div_unique with (r := 0); lia.
Qed.

Lemma pow2_xO (p : positive) : 2 ^ Zpos p~0 = 2 ^ Zpos p * 2 ^ Zpos p.
Proof. rewrite <- Z.pow_add_r by lia. f_equal. lia. Qed.

Lemma pow2_xI (p : positive) : 2 ^ Zpos p~1 = 2 * 2 ^ Zpos p * 2 ^ Zpos p.
Proof.
  replace (Zpos p~1) with (Z.succ (Zpos p~0)) by lia.
  rewrite Z.pow_succ_r, pow2_xO by lia. lia.
Qed.

Lemma iter_shr_m (p : positive) (r : shr_record) :
  0 <= shr_m r -> shr_m (SpecFloat.iter_pos shr_1 p r) = shr_m r / 2 ^ Zpos p.
Proof.
  assert (P : forall q, 0 < 2 ^ Zpos q) by (intros q; apply Z.pow_pos_nonneg; lia).
  revert r. induction p as [p IH|p IH|]; intros r Hr; cbn [SpecFloat.iter_pos].
  - assert (H1 : 0 <= shr_m (shr_1 r)) by (rewrite shr_1_m by exact Hr; apply Z.div_pos; lia).
    assert (H2 : 0 <= shr_m (SpecFloat.iter_pos shr_1 p (shr_1 r)))
      by (rewrite IH by exact H1; apply Z.div_pos; [exact H1|apply P]).
    rewrite IH by exact H2. rewrite IH by exact H1. rewrite shr_1_m by exact Hr.
    pose proof (P p) as Pp.
    rewrite Z.div_div by lia. rewrite Z.div_div by nia.
    rewrite pow2_xI. f_equal. lia.
  - assert (H1 : 0 <= shr_m (SpecFloat.iter_pos shr_1 p r))
      by (rewrite IH by exact Hr; apply Z.div_pos; [exact Hr|apply P]).
    rewrite IH by exact H1. rewrite IH by exact Hr.
    pose proof (P p) as Pp.
    rewrite Z.div_div by lia. rewrite pow2_xO. reflexivity.
  - rewrite shr_1_m by exact Hr. reflexivity.
Qed.

Lemma shr_record_of_loc_m (m : Z) (l : location) : shr_m (shr_record_of_loc m l) = m.
Proof. destruct l as [|[]]; reflexivity. Qed.

(** One shift to the format's exponent: the mantissa stays positive and the
    exponent does not go down. *)
Lemma shr_fexp_step (m : positive) (e : Z) (l : location) :
  -1074 <= e ->
  exists r e', shr_fexp 53 1024 (Zpos m) e l = (r, e') /\
               0 < shr_m r /\ e <= e' /\ e + (Zpos (digits2_pos m) - 53) <= e'.
Proof.
  intros He. pose proof (digits_bounds m) as [Hlo Hhi].
  unfold shr_fexp, fexp, emin. cbn [Zdigits2].
  destruct (Z.max (Zpos (digits2_pos m) + e - 53) (3 - 1024 - 53) - e) as [|k|k] eqn:E;
    cbn [shr].
  - eexists _, _. split; [reflexivity|]. rewrite shr_record_of_loc_m. lia.
  - assert (K : Zpos k = Zpos (digits2_pos m) - 53) by lia.
    eexists _, _. split; [reflexivity|].
    rewrite iter_shr_m by (rewrite shr_record_of_loc_m; lia).
    rewrite shr_record_of_loc_m. split; [|lia].
    apply Z.div_str_pos. split; [apply Z.pow_pos_nonneg; lia|].
    apply Z.le_trans with (2 ^ (Zpos (digits2_pos m) - 1)); [|exact Hlo].
    apply Z.pow_le_mono_r; lia.
  - eexists _, _. split; [reflexivity|]. rewrite shr_record_of_loc_m. lia.
Qed.

Lemma round_nearest_even_ge (m : Z) (l : location) : m <= round_nearest_even m l.
Proof.
  unfold round_nearest_even. destruct l as [|[]]; try lia. destruct (Z.even m); lia.
Qed.

(** Rounding a positive mantissa gives a positive float, finite with an
    exponent that is not below the one given, or infinite. *)
Lemma round_aux_exponent (s : bool) (m : positive) (e : Z) :
  -1074 <= e ->
  binary_round_aux 53 1024 s (Zpos m) e loc_Exact = S754_infinity s \/
  exists m' e', binary_round_aux 53 1024 s (Zpos m) e loc_Exact = S754_finite s m' e' /\
                e <= e' /\ e + (Zpos (digits2_pos m) - 53) <= e'.
Proof.
  intros He. unfold binary_round_aux.
  destruct (shr_fexp_step m e loc_Exact He) as (r1 & e1 & -> & Hr1 & He1 & He1').
  pose proof (round_nearest_even_ge (shr_m r1) (loc_of_shr_record r1)) as Hge.
  destruct (round_nearest_even (shr_m r1) (loc_of_shr_record r1)) as [|m1|m1]; try lia.
  destruct (shr_fexp_step m1 e1 loc_Exact ltac:(lia)) as (r2 & e2 & -> & Hr2 & He2 & _).
  destruct (shr_m r2) as [|m2|m2]; try lia.
  destruct (e2 <=? 1024 - 53); [right|left; reflexivity].
  exists m2, e2. split; [reflexivity|lia].
Qed.

Lemma round_large (s : bool) (p : positive) :
  2 ^ 53 <= Zpos p ->
  binary_round 53 1024 s p 0 = S754_infinity s \/
  exists m e, binary_round 53 1024 s p 0 = S754_finite s m e /\ 1 <= e.
Proof.
  intros Hp. pose proof (digits_bounds p) as [Hlo Hhi].
  assert (Hd : 54 <= Zpos (digits2_pos p)).
  { destruct (Z.le_gt_cases 54 (Zpos (digits2_pos p))) as [H|H]; [exact H|].
    assert (2 ^ Zpos (digits2_pos p) <= 2 ^ 53) by (apply Z.pow_le_mono_r; lia). lia. }
  unfold binary_round, shl_align, fexp, emin.
  destruct (Z.max (Zpos (digits2_pos p) + 0 - 53) (3 - 1024 - 53) - 0) as [|k|k] eqn:E;
    try lia.
  destruct (round_aux_exponent s p 0 ltac:(lia)) as [H|(m & e & H & _ & He)].
  - left. exact H.
  - right. exists m, e. split; [exact H|lia].
Qed.

Lemma of_Z_large (p : positive) :
  2 ^ 53 <= Zpos p ->
  Float.of_Z (Zpos p) = S754_infinity false \/
  exists m e, Float.of_Z (Zpos p) = S754_finite false m e /\ 1 <= e.
Proof. apply (round_large false). Qed.

(** The float of a negative int is a negative number or minus infinity. *)
Lemma of_Z_negative (p : positive) :
  Float.of_Z (Zneg p) = S754_infinity true \/
  exists m e, Float.of_Z (Zneg p) = S754_finite true m e.
Proof.
  unfold Float.of_Z, binary_normalize, Float.prec, Float.emax.
  destruct (Z.lt_ge_cases (Zpos p) (2 ^ 53)) as [Hs|Hl].
  - destruct (round_small true p Hs) as (m & -> & _). right. eexists _, _. reflexivity.
  - destruct (round_large true p Hl) as [->|(m & e & -> & _)];
      [left; reflexivity|right; eexists _, _; reflexivity].
Qed.

(** An int from 2^53 on is never below an int under 2^53, as floats. *)
Lemma ltb_of_Z_large (a b : Z) :
  2 ^ 53 <= a -> 0 <= b < 2 ^ 53 ->
  (Float.of_Z a <? Float.of_Z b)%flt = false.
Proof.
  intros Ha Hb. destruct a as [|p|p]; try lia.
  destruct b as [|q|q]; try lia.
  - destruct (of_Z_large p Ha) as [->|(m & e & -> & _)]; reflexivity.
  - destruct (of_Z_small q ltac:(lia)) as (n & -> & _).
    pose proof (digits_small q ltac:(lia)) as Qd.
    destruct (of_Z_large p Ha) as [->|(m & e & -> & He)]; [reflexivity|].
    unfold Float.ltb, SFltb, SFcompare.
    replace (e ?= Zpos (digits2_pos q) - 53) with Gt
      by (symmetry; apply Z.compare_gt_iff; lia).
    reflexivity.
Qed.

End IntFacts.

(** ** The colour policy *)

Section ColourPolicy.

Variable float_of_str : string -> option float.

Lemma density_color_float (d : float) :
  density_color float_of_str (PyFloat d) = Ok (bucket_color d).
Proof. reflexivity. Qed.

Lemma ltb_not_nan (d t : float) : (d <? t)%flt = true -> Float.is_nan d = false.
Proof. destruct d; simpl; intros H; (reflexivity || discriminate). Qed.

(** Which floats each colour is given to. *)
Lemma bucket_color_iff (d : float) :
  (bucket_color d = "#D4EEFF" <-> (d <? Float.of_Z 50)%flt = true) /\
  (bucket_color d = "#9BD1FF" <->
     (Float.of_Z 50 <=? d)%flt = true /\ (d <? Float.of_Z 100)%flt = true) /\
  (bucket_color d = "#6FB2FF" <->
     (Float.of_Z 100 <=? d)%flt = true /\ (d <? Float.of_Z 150)%flt = true) /\
  (bucket_color d = "#3D7CFF" <->
     (Float.of_Z 150 <=? d)%flt = true /\ (d <? Float.of_Z 250)%flt = true) /\
  (bucket_color d = "#2E6EEA" <->
     (Float.of_Z 250 <=? d)%flt = true /\ (d <? Float.of_Z 500)%flt = true) /\
  (bucket_color d = "#1F4DBF" <->
     (Float.of_Z 500 <=? d)%flt = true \/ Float.is_nan d = true).
Proof.
  unfold bucket_color.
  rewrite !(FloatFacts.leb_negb_ltb _ d) by reflexivity.
  pose proof (fun H => FloatFacts.ltb_trans d (Float.of_Z 50) (Float.of_Z 100) H eq_refl) as T1.
  pose proof (fun H => FloatFacts.ltb_trans d (Float.of_Z 100) (Float.of_Z 150) H eq_refl) as T2.
  pose proof (fun H => FloatFacts.ltb_trans d (Float.of_Z 150) (Float.of_Z 250) H eq_refl) as T3.
  pose proof (fun H => FloatFacts.ltb_trans d (Float.of_Z 250) (Float.of_Z 500) H eq_refl) as T4.
  pose proof (ltb_not_nan d (Float.of_Z 500)) as N.
  destruct (d <? Float.of_Z 50)%flt, (d <? Float.of_Z 100)%flt,
    (d <? Float.of_Z 150)%flt, (d <? Float.of_Z 250)%flt, (d <? Float.of_Z 500)%flt;
    try discriminate (T1 eq_refl); try discriminate (T2 eq_refl);
    try discriminate (T3 eq_refl); try discriminate (T4 eq_refl);
    try rewrite N by reflexivity; try destruct (Float.is_nan d); simpl;
    repeat split; intros; try discriminate; try reflexivity; auto;
    repeat match goal with H : _ /\ _ |- _ => destruct H | H : _ \/ _ |- _ => destruct H end;
    try discriminate.
Qed.

(** C2: the boundaries at 50, 100, 150, 250 and 500 are inclusive below and
    exclusive above. A float [d] gets the colour of the second bucket exactly
    when [50 <= d < 100], and likewise for the other buckets (the first has
    no lower bound, the last no upper bound, and NaN, which compares false
    with everything, falls through to the last); [49.999] and [50.0] get
    different colours, [50.0] and [99.999] the same one, and a density of
    exactly 50, given as a float or as an int, is in the second bucket. *)
Theorem density_color_boundaries (d : float) :
  (density_color float_of_str (PyFloat d) = Ok "#D4EEFF" <->
     (d <? Float.of_Z 50)%flt = true) /\
  (density_color float_of_str (PyFloat d) = Ok "#9BD1FF" <->
     (Float.of_Z 50 <=? d)%flt = true /\ (d <? Float.of_Z 100)%flt = true) /\
  (density_color float_of_str (PyFloat d) = Ok "#6FB2FF" <->
     (Float.of_Z 100 <=? d)%flt = true /\ (d <? Float.of_Z 150)%flt = true) /\
  (density_color float_of_str (PyFloat d) = Ok "#3D7CFF" <->
     (Float.of_Z 150 <=? d)%flt = true /\ (d <? Float.of_Z 250)%flt = true) /\
  (density_color float_of_str (PyFloat d) = Ok "#2E6EEA" <->
     (Float.of_Z 250 <=? d)%flt = true /\ (d <? Float.of_Z 500)%flt = true) /\
  (density_color float_of_str (PyFloat d) = Ok "#1F4DBF" <->
     (Float.of_Z 500 <=? d)%flt = true \/ Float.is_nan d = true) /\
  density_color float_of_str (PyFloat (Float.dec 49999 3))
    <> density_color float_of_str (PyFloat (Float.dec 500 1)) /\
  density_color float_of_str (PyFloat (Float.dec 500 1))
    = density_color float_of_str (PyFloat (Float.dec 99999 3)) /\
  density_color float_of_str (PyFloat (Float.dec 500 1)) = Ok "#9BD1FF" /\
  density_color float_of_str (PyInt 50) = Ok "#9BD1FF" /\
  density_color float_of_str (PyFloat (Float.dec 49999 3)) = Ok "#D4EEFF".
Proof.
  rewrite density_color_float.
  destruct (bucket_color_iff d) as (H1 & H2 & H3 & H4 & H5 & H6).
  assert (inj : forall c, Ok (bucket_color d) = Ok c <-> bucket_color d = c).
  { intros c. split; congruence. }
  rewrite !inj.
  repeat split; try (apply H1 || apply H2 || apply H3 || apply H4 || apply H5 || apply H6);
    try assumption; try (vm_compute; (reflexivity || discriminate)).
Qed.

(** The five comparisons of the chain go from false to true once, at the
    bucket of [d], and the colour is the one the legend has at that place. *)
Lemma threshold_sides (d : float) :
  exists i : nat,
    (i <= 5)%nat /\
    (d <? Float.of_Z 50)%flt = (i <? 1)%nat /\
    (d <? Float.of_Z 100)%flt = (i <? 2)%nat /\
    (d <? Float.of_Z 150)%flt = (i <? 3)%nat /\
    (d <? Float.of_Z 250)%flt = (i <? 4)%nat /\
    (d <? Float.of_Z 500)%flt = (i <? 5)%nat /\
    bucket_colors !! i = Some (bucket_color d).
Proof.
  unfold bucket_color.
  pose proof (fun H => FloatFacts.ltb_trans d (Float.of_Z 50) (Float.of_Z 100) H eq_refl) as T1.
  pose proof (fun H => FloatFacts.ltb_trans d (Float.of_Z 100) (Float.of_Z 150) H eq_refl) as T2.
  pose proof (fun H => FloatFacts.ltb_trans d (Float.of_Z 150) (Float.of_Z 250) H eq_refl) as T3.
  pose proof (fun H => FloatFacts.ltb_trans d (Float.of_Z 250) (Float.of_Z 500) H eq_refl) as T4.
  destruct (d <? Float.of_Z 50)%flt; [rewrite T1, T2, T3, T4 by auto; exists 0%nat; repeat split; lia|].
  destruct (d <? Float.of_Z 100)%flt; [rewrite T2, T3, T4 by auto; exists 1%nat; repeat split; lia|].
  destruct (d <? Float.of_Z 150)%flt; [rewrite T3, T4 by auto; exists 2%nat; repeat split; lia|].
  destruct (d <? Float.of_Z 250)%flt; [rewrite T4 by auto; exists 3%nat; repeat split; lia|].
  destruct (d <? Float.of_Z 500)%flt; [exists 4%nat|exists 5%nat]; repeat split; lia.
Qed.

Lemma bucket_color_in_legend (d : float) : In (bucket_color d) bucket_colors.
Proof.
  destruct (threshold_sides d) as (i & _ & _ & _ & _ & _ & _ & H).
  apply list_elem_of_In. exact (list_elem_of_lookup_2 _ _ _ H).
Qed.

(** An int is compared as the float it converts to: between -2^53 and 2^53
    that is the int itself; beyond, a float that is below every threshold
    when the int is negative and below none when it is positive; and there
    is no float when the int is too large. *)
Lemma density_color_int (z : Z) :
  density_color float_of_str (PyInt z)
  = if Float.is_inf (Float.of_Z z)
    then Raise (mkExn OverflowError "int too large to convert to float")
    else Ok (if z <? 50 then "#D4EEFF"
             else if z <? 100 then "#9BD1FF"
             else if z <? 150 then "#6FB2FF"
             else if z <? 250 then "#3D7CFF"
             else if z <? 500 then "#2E6EEA"
             else "#1F4DBF").
Proof.
  unfold density_color, py_float, float_of_int.
  assert (P : 2 ^ 53 = 9007199254740992) by reflexivity.
  destruct (Z.lt_ge_cases z 0) as [Hn|Hz].
  - destruct z as [|p|p]; try lia.
    replace (Zneg p <? 50) with true by (symmetry; apply Z.ltb_lt; lia).
    destruct (IntFacts.of_Z_negative p) as [->|(m & e & ->)]; reflexivity.
  - destruct (Z.lt_ge_cases z (2 ^ 53)) as [Hs|Hl].
    + remember (Float.of_Z z) as f eqn:Ef.
      assert (F : forall k, 0 <= k < 2 ^ 53 -> (f <? Float.of_Z k)%flt = (z <? k))
        by (intros k Hk; subst f; apply IntFacts.ltb_of_Z; lia).
      assert (If : Float.is_inf f = false)
        by (subst f; apply IntFacts.of_Z_finite; lia).
      destruct f as [s|s| |s m e]; try discriminate If; cbv beta iota;
        cbn [Float.is_inf]; unfold bucket_color;
        rewrite !F by (split; [lia|reflexivity]);
        repeat match goal with |- context [z <? ?k] => destruct (z <? k) end; reflexivity.
    + assert (F : forall k, 0 <= k < 2 ^ 53 ->
                  (Float.of_Z z <? Float.of_Z k)%flt = false)
        by (intros k Hk; apply IntFacts.ltb_of_Z_large; lia).
      replace (z <? 50) with false by (symmetry; apply Z.ltb_ge; lia).
      replace (z <? 100) with false by (symmetry; apply Z.ltb_ge; lia).
      replace (z <? 150) with false by (symmetry; apply Z.ltb_ge; lia).
      replace (z <? 250) with false by (symmetry; apply Z.ltb_ge; lia).
      replace (z <? 500) with false by (symmetry; apply Z.ltb_ge; lia).
      destruct (Float.of_Z z) as [s|s| |s m e] eqn:Ef; cbn [Float.is_inf exn_cls];
        try reflexivity; unfold bucket_color; rewrite !F by (split; [lia|reflexivity]);
        reflexivity.
Qed.

(** C3, as amended: the legend has six pairwise distinct colours; the colour
    of a float is the one the legend has at the place of its bucket (below
    50, 50 to 100, 100 to 150, 150 to 250, 250 to 500, 500 and above, where
    NaN falls too), so two floats get the same colour only when no threshold
    separates them; an int is coloured by the same thresholds, except that
    an int too large for a float, such as [10^400] and no int between -2^53
    and 2^53, makes [float(d)] raise [OverflowError], which [density_color]
    does not catch;
    a missing or non-numeric density ([None], a list, a dict, a str that
    [float] does not parse) gets the default colour [#2E6EEA], which is the
    colour of the bucket from 250 to 500 and not a seventh one; a str that
    [float] parses is coloured as that float. Whatever the value, the result
    is one of the six colours or that [OverflowError]. *)
Theorem density_color_six_colors :
  NoDup bucket_colors /\ length bucket_colors = 6%nat /\
  (forall d : float, exists c,
      density_color float_of_str (PyFloat d) = Ok c /\
      (bucket_colors !! 0%nat = Some c <-> (d <? Float.of_Z 50)%flt = true) /\
      (bucket_colors !! 1%nat = Some c <->
         (Float.of_Z 50 <=? d)%flt = true /\ (d <? Float.of_Z 100)%flt = true) /\
      (bucket_colors !! 2%nat = Some c <->
         (Float.of_Z 100 <=? d)%flt = true /\ (d <? Float.of_Z 150)%flt = true) /\
      (bucket_colors !! 3%nat = Some c <->
         (Float.of_Z 150 <=? d)%flt = true /\ (d <? Float.of_Z 250)%flt = true) /\
      (bucket_colors !! 4%nat = Some c <->
         (Float.of_Z 250 <=? d)%flt = true /\ (d <? Float.of_Z 500)%flt = true) /\
      (bucket_colors !! 5%nat = Some c <->
         (Float.of_Z 500 <=? d)%flt = true \/ Float.is_nan d = true)) /\
  (forall d1 d2 : float,
      density_color float_of_str (PyFloat d1) = density_color float_of_str (PyFloat d2) ->
      Forall (fun t => (d1 <? Float.of_Z t)%flt = (d2 <? Float.of_Z t)%flt)
             [50; 100; 150; 250; 500]) /\
  (forall z : Z,
      density_color float_of_str (PyInt z)
      = if Float.is_inf (Float.of_Z z)
        then Raise (mkExn OverflowError "int too large to convert to float")
        else Ok (if z <? 50 then "#D4EEFF"
                 else if z <? 100 then "#9BD1FF"
                 else if z <? 150 then "#6FB2FF"
                 else if z <? 250 then "#3D7CFF"
                 else if z <? 500 then "#2E6EEA"
                 else "#1F4DBF")) /\
  (forall z : Z, - 2 ^ 53 < z < 2 ^ 53 -> Float.is_inf (Float.of_Z z) = false) /\
  density_color float_of_str (PyInt (10 ^ 400))
  = Raise (mkExn OverflowError "int too large to convert to float") /\
  density_color float_of_str PyNone = Ok "#2E6EEA" /\
  (forall l, density_color float_of_str (PyList l) = Ok "#2E6EEA") /\
  (forall m, density_color float_of_str (PyDict m) = Ok "#2E6EEA") /\
  (forall s, float_of_str s = None ->
             density_color float_of_str (PyStr s) = Ok "#2E6EEA") /\
  (forall s f, float_of_str s = Some f ->
               density_color float_of_str (PyStr s) = density_color float_of_str (PyFloat f)) /\
  bucket_colors !! 4%nat = Some "#2E6EEA" /\
  (forall d : pyval,
      (exists c, density_color float_of_str d = Ok c /\ In c bucket_colors) \/
      (exists z, d = PyInt z /\ Float.is_inf (Float.of_Z z) = true /\
                 density_color float_of_str d
                 = Raise (mkExn OverflowError "int too large to convert to float"))).
Proof.
  split; [apply (bool_decide_unpack _); vm_compute; exact I|].
  split; [reflexivity|].
  split.
  { intros d. exists (bucket_color d). split; [reflexivity|].
    destruct (bucket_color_iff d) as (H1 & H2 & H3 & H4 & H5 & H6).
    cbn [bucket_colors lookup list_lookup].
    assert (inj : forall c, Some c = Some (bucket_color d) <-> bucket_color d = c).
    { intros c. split; congruence. }
    rewrite !inj. split; [exact H1|]. split; [exact H2|]. split; [exact H3|].
    split; [exact H4|]. split; [exact H5|exact H6]. }
  split.
  { intros d1 d2 H. rewrite !density_color_float in H. injection H as H.
    destruct (threshold_sides d1) as (i & Hi & A1 & A2 & A3 & A4 & A5 & Ac).
    destruct (threshold_sides d2) as (j & Hj & B1 & B2 & B3 & B4 & B5 & Bc).
    rewrite H in Ac.
    assert (E : i = j).
    { assert (D : NoDup bucket_colors) by (apply (bool_decide_unpack _); vm_compute; exact I).
      exact (NoDup_lookup _ _ _ _ D Ac Bc). }
    subst j. repeat constructor; congruence. }
  split; [exact density_color_int|].
  split; [exact IntFacts.of_Z_finite|].
  split; [vm_compute; reflexivity|].
  split; [reflexivity|]. split; [reflexivity|]. split; [reflexivity|].
  split; [intros s Hs; unfold density_color, py_float; rewrite Hs; reflexivity|].
  split; [intros s f Hs; unfold density_color, py_float; rewrite Hs; reflexivity|].
  split; [reflexivity|].
  intros d.
  assert (Dflt : In "#2E6EEA" bucket_colors) by (cbn; tauto).
  destruct d as [|b|z|f|s|l|m].
  - left. eexists. split; [reflexivity|exact Dflt].
  - left. exists (bucket_color (Float.of_Z (if b then 1 else 0))).
    split; [reflexivity|apply bucket_color_in_legend].
  - unfold density_color, py_float, float_of_int.
    destruct (Float.of_Z z) as [s|s| |s m e] eqn:E.
    + left. eexists. split; [reflexivity|apply bucket_color_in_legend].
    + right. exists z. rewrite E. repeat split.
    + left. eexists. split; [reflexivity|apply bucket_color_in_legend].
    + left. eexists. split; [reflexivity|apply bucket_color_in_legend].
  - left. eexists. split; [reflexivity|apply bucket_color_in_legend].
  - unfold density_color, py_float. destruct (float_of_str s) as [f|].
    + left. eexists. split; [reflexivity|apply bucket_color_in_legend].
    + left. eexists. split; [reflexivity|exact Dflt].
  - left. eexists. split; [reflexivity|exact Dflt].
  - left. eexists. split; [reflexivity|exact Dflt].
Qed.

End ColourPolicy.

(** C3 as stated fails: the colour of a missing density is not distinct from
    the six bucket colours; [None] and a density of 300 get the same one. *)
Lemma density_color_default_is_fifth_bucket :
  density_color (fun _ => None) PyNone
  = density_color (fun _ => None) (PyFloat (Float.of_Z 300)).
Proof. reflexivity. Qed.

(** ** The metadata enricher *)

Lemma float_of_int_finite (z : Z) :
  Float.is_inf (Float.of_Z z) = false -> float_of_int z = Ok (Float.of_Z z).
Proof.
  unfold float_of_int. destruct (Float.of_Z z); simpl; intros H;
    (reflexivity || discriminate).
Qed.

Lemma int_truediv_finite (a b : Z) :
  b <> 0 -> Float.is_inf (Float.exact a / Float.exact b)%flt = false ->
  int_truediv a b = Ok (Float.exact a / Float.exact b)%flt.
Proof.
  intros Hb Hq. unfold int_truediv.
  destruct (Z.eqb_spec b 0) as [->|_]; [contradiction|].
  destruct (Float.exact a / Float.exact b)%flt; simpl in Hq;
    (reflexivity || discriminate).
Qed.

(** On a regular entry [set_metadata] sets the four fields. *)
Lemma set_metadata_regular (m : meta) (props : gmap string pyval) :
  regular total_pop m = true ->
  set_metadata total_pop m props = Ok (with_metadata m props).
Proof.
  unfold regular. rewrite !andb_true_iff, !negb_true_iff.
  intros ((((Ht & Hsi) & Hsz) & Hpi) & Hqi).
  apply Z.eqb_neq in Ht.
  unfold set_metadata, density, int_div_float, with_metadata, table_density, table_share.
  rewrite (float_of_int_finite _ Hsi). cbn [bind truthy].
  rewrite Hsz. cbn [negb bind].
  rewrite (float_of_int_finite _ Hpi). cbn [bind].
  destruct (Z.eqb_spec total_pop 0) as [E|_]; [contradiction|]. cbn [negb bind].
  rewrite (int_truediv_finite _ _ Ht Hqi). reflexivity.
Qed.

Lemma mapping_items_regular :
  forallb (fun nm => regular total_pop (snd nm)) mapping_items = true.
Proof. vm_compute. reflexivity. Qed.

(** Every entry of the table is regular. *)
Lemma table_regular (name : string) (m : meta) :
  mapping !! name = Some m -> regular total_pop m = true.
Proof.
  intros H. apply elem_of_list_to_map_2 in H.
  pose proof mapping_items_regular as A.
  rewrite forallb_forall in A.
  apply (A (name, m)). apply list_elem_of_In. exact H.
Qed.

Lemma properties_of_insert (fd props : gmap string pyval) :
  properties_of (<["properties" := PyDict props]> fd) = PyDict props.
Proof.
  unfold properties_of, dict_get_or, py_or. rewrite lookup_insert_eq. simpl.
  destruct (map_to_list props) eqn:E; [|reflexivity].
  apply map_to_list_empty_iff in E. rewrite E. reflexivity.
Qed.

(** A feature that has a property dict is its own update with that dict. *)
Lemma properties_of_dict (fd props : gmap string pyval) :
  fd !! "properties" = Some (PyDict props) -> properties_of fd = PyDict props.
Proof.
  intros H. rewrite <- (insert_id fd "properties" (PyDict props) H).
  apply properties_of_insert.
Qed.

Lemma enrich_feature_matched (fd props : gmap string pyval) (name : string) (m : meta) :
  properties_of fd = PyDict props ->
  join_key props = PyStr name ->
  mapping !! name = Some m ->
  enrich_feature (PyDict fd)
  = Ok (PyDict (<["properties" := PyDict (with_metadata m props)]> fd)).
Proof.
  intros Hp Hk Hm. unfold enrich_feature. rewrite Hp, Hk.
  cbn [mapping_get bind]. rewrite Hm. cbn [bind].
  rewrite (set_metadata_regular m props (table_regular name m Hm)). reflexivity.
Qed.

Lemma enrich_feature_unmatched (fd props : gmap string pyval) :
  properties_of fd = PyDict props ->
  mapping_get (join_key props) = Ok None ->
  enrich_feature (PyDict fd) = Ok (PyDict (<["properties" := PyDict props]> fd)).
Proof.
  intros Hp Hk. unfold enrich_feature. rewrite Hp, Hk. reflexivity.
Qed.

Lemma map_result_lookup {A B} (f : A -> result B) (l : list A) (l' : list B) (i : nat) (x : A) :
  map_result f l = Ok l' -> l !! i = Some x -> exists y, f x = Ok y /\ l' !! i = Some y.
Proof.
  revert l' i. induction l as [|a l IH]; intros l' i H Hx; [discriminate|].
  cbn [map_result bind] in H.
  destruct (f a) as [b|] eqn:Fa; [|discriminate]. cbn [bind] in H.
  destruct (map_result f l) as [bs|] eqn:Fl; [|discriminate]. cbn [bind] in H.
  injection H as <-.
  destruct i as [|i]; simpl in Hx.
  - injection Hx as <-. exists b. split; [assumption|reflexivity].
  - destruct (IH bs i eq_refl Hx) as (y & Hy & Hl). exists y. split; assumption.
Qed.

Lemma property_insert (fd props : gmap string pyval) (k : string) :
  property (PyDict (<["properties" := PyDict props]> fd)) k = props !! k.
Proof. unfold property. rewrite properties_of_insert. reflexivity. Qed.

Lemma features_of_insert (g : gmap string pyval) (feats : list pyval) :
  features_of (<["features" := PyList feats]> g) = feats.
Proof. unfold features_of. rewrite lookup_insert_eq. reflexivity. Qed.

(** The features of an enriched collection are the enriched features. *)
Lemma enrich_features (g g' : gmap string pyval) (feats : list pyval) :
  g !! "features" = Some (PyList feats) ->
  enrich_regions_metadata g = Ok g' ->
  map_result enrich_feature feats = Ok (features_of g').
Proof.
  intros Hf. unfold enrich_regions_metadata, for_features. rewrite Hf.
  destruct (map_result enrich_feature feats) as [feats'|]; [|discriminate].
  cbn [bind]. intros [= <-]. rewrite features_of_insert. reflexivity.
Qed.

Lemma total_pop_value : total_pop = 67631065.
Proof. vm_compute. reflexivity. Qed.

Lemma bretagne_entry : mapping !! "Bretagne" = Some (mkMeta 3420000 27208).
Proof. vm_compute. reflexivity. Qed.

Lemma with_metadata_lookup (m : meta) (props : gmap string pyval) :
  with_metadata m props !! "population" = Some (PyInt (population m)) /\
  with_metadata m props !! "surface_km2" = Some (PyFloat (Float.of_Z (surface_km2 m))) /\
  with_metadata m props !! "densite_km2" = Some (PyFloat (table_density m)) /\
  with_metadata m props !! "part_population_pct" = Some (PyFloat (table_share m)).
Proof.
  unfold with_metadata.
  split; [|split; [|split]].
  - rewrite !lookup_insert_ne by discriminate. apply lookup_insert_eq.
  - rewrite !lookup_insert_ne by discriminate. apply lookup_insert_eq.
  - rewrite lookup_insert_ne by discriminate. apply lookup_insert_eq.
  - apply lookup_insert_eq.
Qed.


(** C1, as amended: a feature whose name is a key of the table gets the
    entry's population, its area (as a float), the density
    [population / area] rounded to one decimal and the share
    [100 * population / total_pop] rounded to two decimals, where [total_pop]
    is the sum of the table's populations, 67631065; it is the feature found
    at the same place of the enriched collection. An area of zero would give
    the density [None]. The feature named Bretagne gets 3420000, 27208.0,
    125.7 and 5.06. *)
Theorem enrich_sets_table_metadata
    (fd props : gmap string pyval) (name : string) (m : meta) :
  properties_of fd = PyDict props ->
  join_key props = PyStr name ->
  mapping !! name = Some m ->
  exists feat',
    enrich_feature (PyDict fd) = Ok feat' /\
    property feat' "population" = Some (PyInt (population m)) /\
    property feat' "surface_km2" = Some (PyFloat (Float.of_Z (surface_km2 m))) /\
    property feat' "densite_km2"
    = Some (PyFloat (Float.round
                       (Float.of_Z (population m) / Float.of_Z (surface_km2 m))%flt 1)) /\
    property feat' "part_population_pct"
    = Some (PyFloat (Float.round
                       (Float.exact (100 * population m) / Float.exact total_pop)%flt 2)) /\
    (forall g g' feats i,
        g !! "features" = Some (PyList feats) -> feats !! i = Some (PyDict fd) ->
        enrich_regions_metadata g = Ok g' -> features_of g' !! i = Some feat') /\
    total_pop = 67631065 /\
    (forall pop, (surf <- float_of_int 0 ;; density pop surf) = Ok PyNone) /\
    (name = "Bretagne" ->
     property feat' "population" = Some (PyInt 3420000) /\
     property feat' "surface_km2" = Some (PyFloat (Float.of_Z 27208)) /\
     property feat' "densite_km2" = Some (PyFloat (Float.dec 1257 1)) /\
     property feat' "part_population_pct" = Some (PyFloat (Float.dec 506 2))).
Proof.
  intros Hp Hk Hm.
  exists (PyDict (<["properties" := PyDict (with_metadata m props)]> fd)).
  split; [exact (enrich_feature_matched fd props name m Hp Hk Hm)|].
  rewrite !property_insert.
  destruct (with_metadata_lookup m props) as (Hpop & Hsurf & Hdens & Hshare).
  split; [exact Hpop|]. split; [exact Hsurf|]. split; [exact Hdens|].
  split; [exact Hshare|].
  split.
  { intros g g' feats i Hg Hi He.
    apply (enrich_features g g' feats Hg) in He.
    destruct (map_result_lookup _ _ _ _ _ He Hi) as (y & Hy & Hl).
    rewrite (enrich_feature_matched fd props name m Hp Hk Hm) in Hy.
    injection Hy as <-. exact Hl. }
  split; [exact total_pop_value|].
  split; [intros pop; reflexivity|].
  intros ->. rewrite Hpop, Hsurf, Hdens, Hshare.
  rewrite bretagne_entry in Hm. injection Hm as <-.
  split; [reflexivity|]. split; [reflexivity|].
  split; do 2 f_equal; vm_compute; reflexivity.
Qed.

Lemma enrich_sets_table_metadata_witness :
  exists feat',
    enrich_feature (PyDict (named_feature "nom" "Bretagne")) = Ok feat' /\
    property feat' "population" = Some (PyInt 3420000) /\
    property feat' "densite_km2" = Some (PyFloat (Float.dec 1257 1)).
Proof.
  destruct (enrich_sets_table_metadata (named_feature "nom" "Bretagne")
              {[ "nom" := PyStr "Bretagne" ]} "Bretagne" (mkMeta 3420000 27208))
    as (feat' & He & _ & _ & _ & _ & _ & _ & _ & Hb).
  - vm_compute. reflexivity.
  - vm_compute. reflexivity.
  - vm_compute. reflexivity.
  - exists feat'. destruct (Hb eq_refl) as (Hpop & _ & Hd & _).
    split; [exact He|]. split; [exact Hpop|exact Hd].
Defined.

(** C1 as stated fails: the density stored for Bretagne is the float 125.7,
    which is not the quotient of its population by its area,
    125.69832402234637. *)
Lemma bretagne_density_is_rounded :
  (feat' <- enrich_feature (PyDict (named_feature "nom" "Bretagne")) ;;
   Ok (property feat' "densite_km2"))
  = Ok (Some (PyFloat (Float.dec 1257 1))) /\
  Float.dec 1257 1 <> (Float.of_Z 3420000 / Float.of_Z 27208)%flt /\
  (Float.of_Z 3420000 / Float.of_Z 27208)%flt = Float.dec 12569832402234637 14.
Proof.
  split; [|split].
  - vm_compute. reflexivity.
  - vm_compute. discriminate.
  - vm_compute. reflexivity.
Qed.

(** C7: a feature whose join key is not a key of the table keeps its
    property bag. Its update returns, every property reads as before, so none
    of population, surface_km2, densite_km2 and part_population_pct is added
    or set to zero, and a feature that carries a property dict is returned
    as it was; the same holds of the feature inside an enriched collection. *)
Theorem enrich_leaves_unmatched
    (g g' : gmap string pyval) (feats : list pyval) (i : nat)
    (fd props : gmap string pyval) :
  g !! "features" = Some (PyList feats) ->
  feats !! i = Some (PyDict fd) ->
  properties_of fd = PyDict props ->
  mapping_get (join_key props) = Ok None ->
  enrich_regions_metadata g = Ok g' ->
  exists feat',
    enrich_feature (PyDict fd) = Ok feat' /\
    features_of g' !! i = Some feat' /\
    (forall k, property feat' k = property (PyDict fd) k) /\
    (fd !! "properties" = Some (PyDict props) -> feat' = PyDict fd).
Proof.
  intros Hg Hi Hp Hk He.
  exists (PyDict (<["properties" := PyDict props]> fd)).
  pose proof (enrich_feature_unmatched fd props Hp Hk) as Hf.
  split; [exact Hf|]. split; [|split].
  - apply (enrich_features g g' feats Hg) in He.
    destruct (map_result_lookup _ _ _ _ _ He Hi) as (y & Hy & Hl).
    rewrite Hf in Hy. injection Hy as <-. exact Hl.
  - intros k. rewrite property_insert. unfold property. rewrite Hp. reflexivity.
  - intros Hd. rewrite (insert_id fd "properties" (PyDict props) Hd). reflexivity.
Qed.

Lemma enrich_leaves_unmatched_witness :
  exists feat',
    enrich_feature (PyDict (named_feature "nom" "Unknown Land")) = Ok feat' /\
    feat' = PyDict (named_feature "nom" "Unknown Land") /\
    property feat' "population" = None /\
    property feat' "surface_km2" = None /\
    property feat' "densite_km2" = None /\
    property feat' "part_population_pct" = None.
Proof.
  destruct (enrich_leaves_unmatched two_features
              (match enrich_regions_metadata two_features with
               | Ok g' => g'
               | Raise _ => two_features
               end)
              [ PyDict (named_feature "nom" "Bretagne");
                PyDict (named_feature "nom" "Unknown Land") ]
              1%nat (named_feature "nom" "Unknown Land")
              {[ "nom" := PyStr "Unknown Land" ]})
    as (feat' & He & _ & Hk & Hsame).
  - vm_compute. reflexivity.
  - reflexivity.
  - vm_compute. reflexivity.
  - vm_compute. reflexivity.
  - vm_compute. reflexivity.
  - exists feat'. split; [exact He|].
    split; [apply Hsame; vm_compute; reflexivity|].
    rewrite !Hk. vm_compute. auto.
Defined.

(** ** The join key *)





(** ** Idempotence *)

(** Whatever the dict, [set_metadata] raises the same exception or lays the
    same fields over it. *)
Lemma set_metadata_fields (total : Z) (m : meta) :
  (exists e, forall props, set_metadata total m props = Raise e) \/
  (exists fields : gmap string pyval,
      fields !! "nom" = None /\ fields !! "name" = None /\
      forall props, set_metadata total m props = Ok (fields ∪ props)).
Proof.
  unfold set_metadata.
  destruct (float_of_int (surface_km2 m)) as [surf|e]; cbn [bind];
    [|left; exists e; reflexivity].
  destruct (density (population m) surf) as [dens|e]; cbn [bind];
    [|left; exists e; reflexivity].
  destruct (truthy (PyInt total)).
  - destruct (int_truediv (100 * population m) total) as [share|e]; cbn [bind];
      [|left; exists e; reflexivity].
    right.
    exists (<["part_population_pct" := PyFloat (Float.round share 2)]>
              (<["densite_km2" := dens]>
                 (<["surface_km2" := PyFloat surf]>
                    (<["population" := PyInt (population m)]> ∅)))).
    split; [|split].
    + rewrite !lookup_insert_ne by discriminate. apply lookup_empty.
    + rewrite !lookup_insert_ne by discriminate. apply lookup_empty.
    + intros props. rewrite <- !insert_union_l, (left_id_L ∅ (∪)). reflexivity.
  - right.
    exists (<["densite_km2" := dens]>
              (<["surface_km2" := PyFloat surf]>
                 (<["population" := PyInt (population m)]> ∅))).
    split; [|split].
    + rewrite !lookup_insert_ne by discriminate. apply lookup_empty.
    + rewrite !lookup_insert_ne by discriminate. apply lookup_empty.
    + intros props. rewrite <- !insert_union_l, (left_id_L ∅ (∪)). reflexivity.
Qed.

Lemma join_key_union (fields props : gmap string pyval) :
  fields !! "nom" = None -> fields !! "name" = None ->
  join_key (fields ∪ props) = join_key props.
Proof.
  intros Hnom Hname. unfold join_key, dict_get.
  rewrite !lookup_union_r by assumption. reflexivity.
Qed.

(** An enriched feature is a fixed point of the update. *)
Lemma enrich_feature_idem (feat feat' : pyval) :
  enrich_feature feat = Ok feat' -> enrich_feature feat' = Ok feat'.
Proof.
  destruct feat as [| | | | | |fd]; try discriminate.
  unfold enrich_feature at 1.
  destruct (properties_of fd) as [| | | | | |props] eqn:Hp; try discriminate.
  destruct (mapping_get (join_key props)) as [[m|]|e] eqn:Hk; cbn [bind];
    [| |discriminate].
  - destruct (set_metadata_fields total_pop m) as [[e He]|(fields & Hnom & Hname & Hf)].
    + rewrite He. discriminate.
    + rewrite Hf. cbn [bind]. intros [= <-].
      unfold enrich_feature. rewrite properties_of_insert.
      rewrite (join_key_union fields props Hnom Hname), Hk. cbn [bind].
      rewrite Hf. cbn [bind]. rewrite insert_insert_eq.
      rewrite (assoc_L (∪)), (idemp_L (∪)). reflexivity.
  - intros [= <-].
    unfold enrich_feature. rewrite properties_of_insert, Hk. cbn [bind].
    rewrite insert_insert_eq. reflexivity.
Qed.

Lemma map_result_idem {A} (f : A -> result A) (l l' : list A) :
  (forall x y, f x = Ok y -> f y = Ok y) ->
  map_result f l = Ok l' -> map_result f l' = Ok l'.
Proof.
  intros Hf. revert l'. induction l as [|a l IH]; intros l'; cbn [map_result].
  - intros [= <-]. reflexivity.
  - destruct (f a) as [b|] eqn:Fa; [|discriminate]. cbn [bind].
    destruct (map_result f l) as [bs|]; [|discriminate]. cbn [bind].
    intros [= <-]. cbn [map_result].
    rewrite (Hf a b Fa). cbn [bind]. rewrite (IH bs eq_refl). reflexivity.
Qed.

(** C8: running the enricher on its own result changes nothing; an
    exception of the first run is the outcome of the two runs. *)
Theorem enrich_regions_metadata_idempotent (geojson : gmap string pyval) :
  (g' <- enrich_regions_metadata geojson ;; enrich_regions_metadata g')
  = enrich_regions_metadata geojson.
Proof.
  unfold enrich_regions_metadata, for_features.
  destruct (geojson !! "features") as [v|] eqn:Hf.
  - destruct v as [| | | |s|feats|d];
      try (cbn [py_iter bind]; reflexivity).
    + cbn [py_iter bind].
      destruct (map_result enrich_feature (PyStr <$> utf8_chars s)) eqn:E;
        cbn [bind]; [|reflexivity].
      rewrite Hf. cbn [py_iter bind]. rewrite E. reflexivity.
    + destruct (map_result enrich_feature feats) as [feats'|e] eqn:Hm; cbn [bind];
        [|reflexivity].
      rewrite lookup_insert_eq.
      rewrite (map_result_idem enrich_feature feats feats' enrich_feature_idem Hm).
      cbn [bind]. rewrite insert_insert_eq. reflexivity.
    + cbn [py_iter bind].
      destruct (map_result enrich_feature (PyStr <$> (fst <$> map_to_list d))) eqn:E;
        cbn [bind]; [|reflexivity].
      rewrite Hf. cbn [py_iter bind]. rewrite E. reflexivity.
  - cbn [bind]. rewrite Hf. reflexivity.
Qed.

(** ** The click target *)

Lemma hex_digit_value (c : ascii) :
  hex_value (hex_digit (N_of_ascii c / 16)) = Some (N_of_ascii c / 16)%N /\
  hex_value (hex_digit (N_of_ascii c mod 16)) = Some (N_of_ascii c mod 16)%N /\
  ascii_of_N (16 * (N_of_ascii c / 16) + N_of_ascii c mod 16) = c.
Proof.
  destruct c as [[] [] [] [] [] [] [] []]; vm_compute; repeat split.
Qed.

Lemma unreserved_not_percent (c : ascii) :
  uri_unreserved c = true -> Ascii.eqb c "%" = false.
Proof.
  intros H. destruct (Ascii.eqb_spec c "%") as [->|_]; [|reflexivity].
  vm_compute in H. discriminate.
Qed.

Lemma pct_byte_safe (c : ascii) :
  forallb uri_safe (list_ascii_of_string (pct_byte c)) = true.
Proof.
  destruct c as [[] [] [] [] [] [] [] []]; vm_compute; reflexivity.
Qed.

Lemma pct_decode_encode (nom : string) :
  pct_decode (encodeURIComponent nom) = Some nom.
Proof.
  induction nom as [|c nom IH]; [reflexivity|].
  cbn [encodeURIComponent].
  destruct (uri_unreserved c) eqn:U.
  - change (String c EmptyString +:+ encodeURIComponent nom)
      with (String c (encodeURIComponent nom)).
    cbn [pct_decode].
    rewrite (unreserved_not_percent c U), IH. reflexivity.
  - unfold pct_byte.
    change (String "%" (String ?h (String ?l EmptyString)) +:+ encodeURIComponent nom)
      with (String "%" (String h (String l (encodeURIComponent nom)))).
    cbn [pct_decode].
    destruct (hex_digit_value c) as (Hh & Hl & Hc).
    change (Ascii.eqb "%" "%") with true. cbv iota.
    rewrite Hh, Hl, IH, Hc. reflexivity.
Qed.

Lemma list_ascii_of_string_app (s t : string) :
  list_ascii_of_string (s +:+ t)
  = (list_ascii_of_string s ++ list_ascii_of_string t)%list.
Proof. induction s as [|c s IH]; [reflexivity|]. simpl. rewrite IH. reflexivity. Qed.

Lemma encodeURIComponent_safe (nom : string) :
  forallb uri_safe (list_ascii_of_string (encodeURIComponent nom)) = true.
Proof.
  induction nom as [|c nom IH]; [reflexivity|].
  cbn [encodeURIComponent]. rewrite list_ascii_of_string_app, forallb_app, IH, andb_true_r.
  destruct (uri_unreserved c) eqn:U.
  - cbn [list_ascii_of_string forallb]. unfold uri_safe. rewrite U. reflexivity.
  - apply pct_byte_safe.
Qed.



Section ScriptFacts.

Variable js_to_string : pyval -> string.



End ScriptFacts.


(** ** The source resolver *)

Lemma try_urls_tier (t : tier) (net : network) (urls : list string) (s : resolver) :
  try_urls (try_tier t) net urls s = try_candidates net (pair t <$> urls) s.
Proof.
  revert s. induction urls as [|url urls IH]; intros s; [reflexivity|].
  cbn [try_urls fmap list_fmap try_candidates].
  destruct (try_tier t (net url)); [reflexivity|apply IH|apply IH].
Qed.

Lemma try_candidates_app (net : network) (cs1 cs2 : list (tier * string)) (s : resolver) :
  try_candidates net (cs1 ++ cs2) s
  = match try_candidates net cs1 s with
    | (Some data, s') => (Some data, s')
    | (None, s') => try_candidates net cs2 s'
    end.
Proof.
  revert s. induction cs1 as [|[t url] cs1 IH]; intros s; [reflexivity|].
  cbn [app try_candidates].
  destruct (try_tier t (net url)); [reflexivity|apply IH|apply IH].
Qed.

(** The two loops of [fetch_regions_geojson] are one loop over [candidates]. *)
Lemma fetch_as_loop (net : network) :
  fetch_regions_geojson net = finish (try_candidates net candidates (mkResolver None [])).
Proof.
  unfold fetch_regions_geojson, candidates.
  rewrite try_candidates_app.
  change try_primary with (try_tier Primary).
  change try_fallback with (try_tier Fallback).
  rewrite try_urls_tier.
  destruct (try_candidates net (pair Primary <$> candidate_urls) (mkResolver None []))
    as [[data|] s]; [reflexivity|].
  rewrite try_urls_tier.
  destruct (try_candidates net (pair Fallback <$> fallbacks) s) as [[data|] s'];
    reflexivity.
Qed.

(** Candidates that all fail are all contacted, once each and in order. *)
Lemma try_candidates_fail (net : network) (cs : list (tier * string)) (s : resolver) :
  Forall (fun c => succeeded (attempt_of net c) = false) cs ->
  try_candidates net cs s
  = (None, mkResolver (last_failure (last_err s) (attempt_of net <$> cs))
                      (contacted s ++ (snd <$> cs))).
Proof.
  intros H. revert s. induction H as [|[t url] cs Hc _ IH]; intros s.
  - cbn. rewrite app_nil_r. destruct s; reflexivity.
  - cbn [try_candidates fmap list_fmap last_failure].
    unfold attempt_of in Hc |- *. cbn [fst snd] in Hc |- *.
    destruct (try_tier t (net url)); [discriminate| |]; rewrite IH;
      cbn [contact record_err last_err contacted]; rewrite <- app_assoc; reflexivity.
Qed.

(** The loop stops at the first candidate that succeeds. *)
Lemma try_candidates_first (net : network) (pre post : list (tier * string))
    (c : tier * string) (data : pyval) (s : resolver) :
  Forall (fun c => succeeded (attempt_of net c) = false) pre ->
  attempt_of net c = Success data ->
  try_candidates net (pre ++ c :: post) s
  = (Some data, mkResolver (last_failure (last_err s) (attempt_of net <$> pre))
                           (contacted s ++ (snd <$> pre) ++ [snd c])).
Proof.
  intros Hpre Hc. rewrite try_candidates_app, (try_candidates_fail net pre s Hpre).
  destruct c as [t url]. unfold attempt_of in Hc. cbn [fst snd] in Hc |- *.
  cbn [try_candidates]. rewrite Hc. unfold contact. cbn [last_err contacted].
  rewrite <- app_assoc. reflexivity.
Qed.

Lemma candidate_urls_distinct : NoDup (snd <$> candidates).
Proof. apply (bool_decide_unpack _). vm_compute. exact I. Qed.

(** The loop after a prefix of failed candidates. *)
Lemma try_candidates_after (net : network) (pre post : list (tier * string)) (s : resolver) :
  Forall (fun c => succeeded (attempt_of net c) = false) pre ->
  try_candidates net (pre ++ post) s
  = try_candidates net post
      (mkResolver (last_failure (last_err s) (attempt_of net <$> pre))
                  (contacted s ++ (snd <$> pre))).
Proof.
  intros H. rewrite try_candidates_app, (try_candidates_fail net pre s H). reflexivity.
Qed.

(** The requests sent are an initial segment of the candidate list. *)
Lemma contacted_prefix (net : network) (cs : list (tier * string)) (s : resolver) :
  exists sent rest,
    (snd <$> cs) = (sent ++ rest)%list /\
    contacted (snd (try_candidates net cs s)) = (contacted s ++ sent)%list.
Proof.
  revert s. induction cs as [|[t url] cs IH]; intros s.
  - exists [], []. split; [reflexivity|]. cbn. rewrite app_nil_r. reflexivity.
  - cbn [try_candidates].
    destruct (try_tier t (net url)).
    + exists [url], (snd <$> cs). split; reflexivity.
    + destruct (IH (record_err e (contact url s))) as (sent & rest & Hs & Hc).
      exists (url :: sent), rest. split; [cbn; rewrite Hs; reflexivity|].
      rewrite Hc. cbn. rewrite <- app_assoc. reflexivity.
    + destruct (IH (contact url s)) as (sent & rest & Hs & Hc).
      exists (url :: sent), rest. split; [cbn; rewrite Hs; reflexivity|].
      rewrite Hc. cbn. rewrite <- app_assoc. reflexivity.
Qed.

Lemma fetch_contacts_once (net : network) :
  NoDup (contacted (snd (fetch_regions_geojson net))).
Proof.
  rewrite fetch_as_loop.
  destruct (contacted_prefix net candidates (mkResolver None [])) as (sent & rest & Hs & Hc).
  assert (E : contacted (snd (finish (try_candidates net candidates (mkResolver None []))))
              = sent).
  { destruct (try_candidates net candidates (mkResolver None [])) as [[data|] s];
      exact Hc. }
  rewrite E. pose proof candidate_urls_distinct as D. rewrite Hs in D.
  apply NoDup_app in D. apply D.
Qed.

(** *** The attempts read off the responses *)

Lemma try_tier_cases (t : tier) (r : response) :
  match try_tier t r with
  | Success _ => raised t r = None /\ lacks_features r = false
  | Failure e => raised t r = Some e
  | NoFeatures => raised t r = None /\ lacks_features r = true
  end.
Proof.
  destruct t, r as [e|e|e|data]; cbn [try_tier try_primary try_fallback get_json raised
                                       lacks_features]; try reflexivity.
  - destruct (has_features data) eqn:H; cbn [negb];
      (split; [destruct data; reflexivity|reflexivity]).
  - destruct data as [| | | | | |d]; cbn [has_features negb]; try (split; reflexivity).
    destruct (truthy (dict_get d "features")); cbn [negb]; [|split; reflexivity].
    destruct (normalize d); [split; reflexivity|reflexivity].
Qed.

Lemma fails_iff (t : tier) (r : response) :
  fails t r = true <-> succeeded (try_tier t r) = false.
Proof.
  unfold fails. pose proof (try_tier_cases t r) as H.
  destruct (try_tier t r); cbn [succeeded].
  - destruct H as [-> ->]. split; discriminate.
  - rewrite H. split; reflexivity.
  - destruct H as [-> ->]. split; reflexivity.
Qed.

Lemma all_fail_iff (net : network) (cs : list (tier * string)) :
  Forall (fun c => fails (fst c) (net (snd c)) = true) cs <->
  Forall (fun c => succeeded (attempt_of net c) = false) cs.
Proof. apply Forall_iff. intros c. apply fails_iff. Qed.

Lemma last_failure_raised (net : network) (acc : option exn) (cs : list (tier * string)) :
  last_failure acc (attempt_of net <$> cs) = last_raised net acc cs.
Proof.
  revert acc. induction cs as [|[t url] cs IH]; intros acc; [reflexivity|].
  cbn [fmap list_fmap last_failure last_raised]. unfold attempt_of at 1. cbn [fst snd].
  pose proof (try_tier_cases t (net url)) as H.
  destruct (try_tier t (net url)).
  - destruct H as [-> _]. apply IH.
  - rewrite H. apply IH.
  - destruct H as [-> _]. apply IH.
Qed.

Lemma last_raised_app (net : network) (acc : option exn) (cs1 cs2 : list (tier * string)) :
  last_raised net acc (cs1 ++ cs2) = last_raised net (last_raised net acc cs1) cs2.
Proof.
  revert acc. induction cs1 as [|[t url] cs1 IH]; intros acc; [reflexivity|].
  cbn [app last_raised]. apply IH.
Qed.

Lemma last_raised_none (net : network) (acc : option exn) (cs : list (tier * string)) :
  Forall (fun c => raised (fst c) (net (snd c)) = None) cs ->
  last_raised net acc cs = acc.
Proof.
  intros H. revert acc. induction H as [|[t url] cs Hc _ IH]; intros acc; [reflexivity|].
  cbn [last_raised]. cbn [fst snd] in Hc. rewrite Hc. apply IH.
Qed.

Lemma lacks_features_raised (t : tier) (r : response) :
  lacks_features r = true -> raised t r = None.
Proof.
  destruct r as [e|e|e|data]; cbn [lacks_features raised]; try discriminate.
  intros H. apply negb_true_iff in H.
  destruct t; [destruct data; reflexivity|].
  destruct data as [| | | | | |d]; try reflexivity. rewrite H. reflexivity.
Qed.

(** What the [try] block of a candidate raises, in the words of the code:
    the exception of the request, the status check or the decoding, or, for
    a fallback source with features, that of the normalisation. *)
Lemma raised_iff (t : tier) (r : response) (e : exn) :
  raised t r = Some e <->
  get_json r = Raise e \/
  (t = Fallback /\ exists d, r = Json (PyDict d) /\ has_features (PyDict d) = true /\
                             normalize d = Raise e).
Proof.
  split.
  - destruct r as [e'|e'|e'|data]; cbn [raised get_json];
      try (intros [= ->]; left; reflexivity).
    destruct t; [discriminate|].
    destruct data as [| | | | | |d]; try discriminate.
    destruct (has_features (PyDict d)) eqn:H; [|discriminate].
    destruct (normalize d) as [d'|e'] eqn:N; [discriminate|].
    intros [= ->]. right. split; [reflexivity|]. exists d. repeat split; assumption.
  - intros [H|(-> & d & -> & H & N)].
    + destruct r as [e'|e'|e'|data]; cbn [get_json] in H; try discriminate;
        injection H as ->; reflexivity.
    + cbn [raised]. rewrite H, N. reflexivity.
Qed.

(** The run after a prefix of candidates that failed. *)
Lemma fetch_after_failures (net : network) (pre post : list (tier * string)) :
  candidates = (pre ++ post)%list ->
  Forall (fun c => fails (fst c) (net (snd c)) = true) pre ->
  fetch_regions_geojson net
  = finish (try_candidates net post (mkResolver (last_raised net None pre) (snd <$> pre))).
Proof.
  intros Hcs Hpre. apply all_fail_iff in Hpre.
  rewrite fetch_as_loop, Hcs, (try_candidates_after net pre post _ Hpre).
  cbn [last_err contacted app]. rewrite last_failure_raised. reflexivity.
Qed.

(** The run when a candidate succeeds after a prefix of candidates that
    failed. *)
Lemma fetch_first_success (net : network) (pre post : list (tier * string))
    (t : tier) (url : string) (data : pyval) :
  candidates = (pre ++ (t, url) :: post)%list ->
  Forall (fun c => fails (fst c) (net (snd c)) = true) pre ->
  try_tier t (net url) = Success data ->
  fetch_regions_geojson net
  = (Returned data, mkResolver (last_raised net None pre) ((snd <$> pre) ++ [url])).
Proof.
  intros Hcs Hpre Hc. apply all_fail_iff in Hpre.
  rewrite fetch_as_loop, Hcs.
  rewrite (try_candidates_first net pre post (t, url) data _ Hpre Hc).
  cbn [finish last_err contacted app snd]. rewrite last_failure_raised. reflexivity.
Qed.

Lemma contacted_grows (net : network) (cs : list (tier * string)) (s : resolver) (u : string) :
  u ∈ contacted s -> u ∈ contacted (snd (try_candidates net cs s)).
Proof.
  intros Hu. destruct (contacted_prefix net cs s) as (sent & rest & _ & ->).
  apply elem_of_app. left. exact Hu.
Qed.

Lemma contacted_finish (r : option pyval * resolver) :
  contacted (snd (finish r)) = contacted (snd r).
Proof. destruct r as [[data|] s]; reflexivity. Qed.

Lemma head_contacted (net : network) (cs : list (tier * string)) (s : resolver)
    (c : tier * string) :
  head cs = Some c -> snd c ∈ contacted (snd (finish (try_candidates net cs s))).
Proof.
  destruct cs as [|[t url] cs]; [discriminate|]. intros [= <-].
  rewrite contacted_finish. cbn [try_candidates snd].
  assert (H : url ∈ contacted (contact url s))
    by (unfold contact; cbn [contacted]; apply elem_of_app; right; apply list_elem_of_here).
  destruct (try_tier t (net url)).
  - exact H.
  - apply contacted_grows. exact H.
  - apply contacted_grows. exact H.
Qed.

Lemma last_raised_snoc (net : network) (pre : list (tier * string)) (t : tier) (url : string) :
  last_raised net None (pre ++ [(t, url)])
  = match raised t (net url) with
    | Some e => Some e
    | None => last_raised net None pre
    end.
Proof. rewrite last_raised_app. reflexivity. Qed.

Lemma fetch_after_failure (net : network) (pre post : list (tier * string))
    (t : tier) (url : string) :
  candidates = (pre ++ (t, url) :: post)%list ->
  Forall (fun c => fails (fst c) (net (snd c)) = true) pre ->
  fails t (net url) = true ->
  fetch_regions_geojson net
  = finish (try_candidates net post
              (mkResolver (match raised t (net url) with
                           | Some e => Some e
                           | None => last_raised net None pre
                           end)
                          ((snd <$> pre) ++ [url]))).
Proof.
  intros Hcs Hpre Hc.
  rewrite (fetch_after_failures net (pre ++ [(t, url)]) post).
  - rewrite last_raised_snoc, fmap_app. reflexivity.
  - rewrite Hcs, <- app_assoc. reflexivity.
  - apply Forall_app. split; [exact Hpre|]. constructor; [exact Hc|constructor].
Qed.

(** C4, as amended: when every candidate of both tiers fails, the call
    raises [SystemExit] with the fixed text followed by [str(last_err)];
    uncaught, the exception ends the process with status 1 and puts the
    message and a newline on the standard error; all eight candidates have
    been contacted. [last_err] is the exception of the last candidate whose
    [try] block raised one (in the request, the status check, the decoding
    or, for a fallback source, the normalisation), so the message ends with
    the text of that exception; when no candidate raised, every body being
    JSON without features, [last_err] is still [None] and the message ends
    with the text [None]. *)
Theorem fetch_exhausted_exits (net : network) :
  Forall (fun c => fails (fst c) (net (snd c)) = true) candidates ->
  exists msg s,
    fetch_regions_geojson net = (SystemExit msg, s) /\
    exit_status (SystemExit msg) = Some 1 /\
    1 <> 0 /\
    stderr (SystemExit msg) = msg +:+ newline /\
    contacted s = (candidate_urls ++ fallbacks)%list /\
    msg = exhausted_msg +:+ str_of_err (last_err s) /\
    (forall pre t url post e,
        candidates = (pre ++ (t, url) :: post)%list ->
        get_json (net url) = Raise e \/
        (t = Fallback /\
         exists d, net url = Json (PyDict d) /\ has_features (PyDict d) = true /\
                   normalize d = Raise e) ->
        Forall (fun c => lacks_features (net (snd c)) = true) post ->
        last_err s = Some e /\ msg = exhausted_msg +:+ exn_str e) /\
    (Forall (fun c => lacks_features (net (snd c)) = true) candidates ->
     last_err s = None /\ msg = exhausted_msg +:+ "None").
Proof.
  intros H.
  exists (exhausted_msg +:+ str_of_err (last_raised net None candidates)).
  exists (mkResolver (last_raised net None candidates) (snd <$> candidates)).
  rewrite (fetch_after_failures net candidates []) by (rewrite ?app_nil_r; auto).
  cbn [try_candidates finish last_err contacted].
  split; [reflexivity|]. split; [reflexivity|]. split; [discriminate|].
  split; [reflexivity|]. split; [reflexivity|]. split; [reflexivity|].
  split.
  - intros pre t url post e Hcs He Hpost.
    assert (E : last_raised net None candidates = Some e).
    { rewrite Hcs, (cons_middle (t, url)), app_assoc, last_raised_app, last_raised_snoc.
      apply raised_iff in He. rewrite He.
      apply last_raised_none. eapply Forall_impl; [exact Hpost|].
      intros c Hc. apply lacks_features_raised. exact Hc. }
    rewrite E. split; reflexivity.
  - intros Hall.
    assert (E : last_raised net None candidates = None).
    { apply last_raised_none. eapply Forall_impl; [exact Hall|].
      intros c Hc. apply lacks_features_raised. exact Hc. }
    rewrite E. split; reflexivity.
Qed.

Lemma fetch_exhausted_exits_witness :
  exists msg s,
    fetch_regions_geojson unreachable = (SystemExit msg, s) /\
    msg = exhausted_msg +:+ "Read timed out." /\
    exit_status (SystemExit msg) = Some 1 /\
    stderr (SystemExit msg) = exhausted_msg +:+ "Read timed out." +:+ newline.
Proof.
  destruct (fetch_exhausted_exits unreachable)
    as (msg & s & Hf & Hx & _ & Hs & _ & _ & Hlast & _).
  - apply Forall_forall. intros [[] url] _; reflexivity.
  - destruct (Hlast (take 7 candidates) Fallback
                "https://raw.githubusercontent.com/gregoiredavid/france-geojson/master/regions.geojson"
                [] timed_out) as [_ Hm].
    + reflexivity.
    + left. reflexivity.
    + constructor.
    + exists msg, s. split; [exact Hf|]. split; [exact Hm|]. split; [exact Hx|].
      rewrite Hs, Hm. reflexivity.
Defined.

(** C4 as stated fails: when every server answers with an empty feature
    collection, every candidate fails, the run is aborted, and the message
    carries no error detail: no candidate raised, and the message ends with
    the text [None]. *)
Lemma exhausted_without_error_detail :
  Forall (fun c => fails (fst c) (empty_collections (snd c)) = true) candidates /\
  fetch_regions_geojson empty_collections
  = (SystemExit (exhausted_msg +:+ "None"), mkResolver None (candidate_urls ++ fallbacks)) /\
  stderr (fst (fetch_regions_geojson empty_collections))
  = exhausted_msg +:+ "None" +:+ newline.
Proof.
  split; [apply Forall_forall; intros [[] url] _; reflexivity|].
  split; vm_compute; reflexivity.
Qed.

(** C5, as amended: the candidate at any place of the list, the earlier ones
    having failed. If its request, its status check or the decoding of its
    body raises, the exception is stored in [last_err] and the loop goes on
    with the next candidate. If its body is JSON without features (not an
    object, or an object whose "features" value is absent or false), nothing
    is stored, [last_err] stays what the earlier candidates left, and the
    loop goes on. If its body is an object with a true "features" value,
    list or not, a primary candidate returns it; a fallback candidate runs
    the normalisation and returns the result or, if the normalisation
    raises, stores that exception and goes on. These three cases are all
    there is. A candidate that failed is followed by a request to the next
    one, or by [SystemExit] if it was the last; and no run sends two
    requests to one URL. *)
Theorem failed_candidate_recorded_or_skipped
    (net : network) (pre post : list (tier * string)) (t : tier) (url : string) :
  candidates = (pre ++ (t, url) :: post)%list ->
  Forall (fun c => fails (fst c) (net (snd c)) = true) pre ->
  (forall e, get_json (net url) = Raise e ->
     fetch_regions_geojson net
     = finish (try_candidates net post (mkResolver (Some e) ((snd <$> pre) ++ [url])))) /\
  (forall data, net url = Json data -> has_features data = false ->
     fetch_regions_geojson net
     = finish (try_candidates net post
                 (mkResolver (last_raised net None pre) ((snd <$> pre) ++ [url])))) /\
  (forall d, net url = Json (PyDict d) -> has_features (PyDict d) = true ->
     match t, normalize d with
     | Primary, _ =>
         fetch_regions_geojson net
         = (Returned (PyDict d),
            mkResolver (last_raised net None pre) ((snd <$> pre) ++ [url]))
     | Fallback, Ok d' =>
         fetch_regions_geojson net
         = (Returned (PyDict d'),
            mkResolver (last_raised net None pre) ((snd <$> pre) ++ [url]))
     | Fallback, Raise e =>
         fetch_regions_geojson net
         = finish (try_candidates net post (mkResolver (Some e) ((snd <$> pre) ++ [url])))
     end) /\
  ((exists e, get_json (net url) = Raise e) \/
   (exists data, net url = Json data /\ has_features data = false) \/
   (exists d, net url = Json (PyDict d) /\ has_features (PyDict d) = true)) /\
  (fails t (net url) = true ->
   (forall c, head post = Some c -> snd c ∈ contacted (snd (fetch_regions_geojson net))) /\
   (post = [] -> exists msg, fst (fetch_regions_geojson net) = SystemExit msg)) /\
  NoDup (contacted (snd (fetch_regions_geojson net))).
Proof.
  intros Hcs Hpre.
  split.
  { intros e He.
    assert (R : raised t (net url) = Some e) by (apply raised_iff; left; exact He).
    rewrite (fetch_after_failure net pre post t url Hcs Hpre)
      by (unfold fails; rewrite R; reflexivity).
    rewrite R. reflexivity. }
  split.
  { intros data Hd Hf.
    assert (L : lacks_features (net url) = true) by (rewrite Hd; cbn; rewrite Hf; reflexivity).
    pose proof (lacks_features_raised t _ L) as R.
    rewrite (fetch_after_failure net pre post t url Hcs Hpre)
      by (unfold fails; rewrite R; exact L).
    rewrite R. reflexivity. }
  split.
  { intros d Hd Hf. destruct t.
    - destruct (normalize d);
        apply (fetch_first_success net pre post Primary url _ Hcs Hpre);
        cbn [try_tier]; unfold try_primary; rewrite Hd; cbn [get_json]; rewrite Hf;
        reflexivity.
    - destruct (normalize d) as [d'|e] eqn:N.
      + apply (fetch_first_success net pre post Fallback url _ Hcs Hpre).
        cbn [try_tier]. unfold try_fallback. rewrite Hd. cbn [get_json].
        cbn [has_features] in Hf. rewrite Hf, N. reflexivity.
      + assert (R : raised Fallback (net url) = Some e).
        { apply raised_iff. right. split; [reflexivity|]. exists d. repeat split; assumption. }
        rewrite (fetch_after_failure net pre post Fallback url Hcs Hpre)
          by (unfold fails; rewrite R; reflexivity).
        rewrite R. reflexivity. }
  split.
  { destruct (net url) as [e|e|e|data]; try (left; exists e; reflexivity).
    right. destruct (has_features data) eqn:Hf.
    - right. destruct data as [| | | | | |d]; try discriminate. exists d. split; auto.
    - left. exists data. split; auto. }
  split; [|apply fetch_contacts_once].
  intros Hc. rewrite (fetch_after_failure net pre post t url Hcs Hpre Hc). split.
  - intros c Hhd. apply head_contacted. exact Hhd.
  - intros ->. cbn [try_candidates finish fst]. eexists. reflexivity.
Qed.

Lemma failed_candidate_recorded_or_skipped_witness :
  fetch_regions_geojson unreachable
  = finish (try_candidates unreachable (tail candidates)
              (mkResolver (Some timed_out) (take 1 candidate_urls))).
Proof.
  destruct (failed_candidate_recorded_or_skipped unreachable [] (tail candidates) Primary
              "https://geo.api.gouv.fr/regions?format=geojson&geometry=contour&projection=WGS84")
    as (Hrec & _).
  - reflexivity.
  - constructor.
  - apply (Hrec timed_out). reflexivity.
Defined.

(** C5 as stated fails: when every candidate answers with the JSON object
    [{}], every candidate fails for want of features, yet no error is
    recorded; [last_err] is still [None] at the end and the message ends
    with the text [None]. *)
Lemma empty_bodies_record_no_error :
  Forall (fun c => attempt_of empty_bodies c = NoFeatures) candidates /\
  fetch_regions_geojson empty_bodies
  = (SystemExit (exhausted_msg +:+ "None"),
     mkResolver None (candidate_urls ++ fallbacks)).
Proof.
  split.
  - apply Forall_forall. intros [[] url] _; reflexivity.
  - vm_compute. reflexivity.
Qed.

(** A body whose "features" value is true without being a list: the number
    5. A primary candidate returns it; a fallback candidate fails in the
    normalisation loop, and the [TypeError] is the error recorded. *)
Example features_five_by_tier :
  fst (fetch_regions_geojson
         (features_five "https://geo.api.gouv.fr/regions?format=geojson&geometry=contour&projection=WGS84"))
  = Returned (PyDict {[ "features" := PyInt 5 ]}) /\
  fetch_regions_geojson
    (features_five "https://raw.githubusercontent.com/gregoiredavid/france-geojson/master/regions.geojson")
  = (SystemExit (exhausted_msg +:+ "'int' object is not iterable"),
     mkResolver (Some (mkExn TypeError "'int' object is not iterable"))
                (candidate_urls ++ fallbacks)).
Proof. split; vm_compute; reflexivity. Qed.


(** *** The normalisation returns on GeoJSON features *)

Lemma py_contains_dict (k : string) (d : gmap string pyval) :
  py_contains k (PyDict d) = Ok (bool_decide (is_Some (d !! k))).
Proof. reflexivity. Qed.

Lemma copy_code_dict (keys : list string) (d : gmap string pyval) :
  exists d', copy_code keys (PyDict d) = Ok (PyDict d').
Proof.
  induction keys as [|key keys IH]; [exists d; reflexivity|].
  cbn [copy_code]. rewrite py_contains_dict. cbn [bind].
  destruct (bool_decide (is_Some (d !! key))) eqn:E; [|exact IH].
  apply bool_decide_eq_true in E. destruct E as [v Hv].
  cbn [py_getitem]. rewrite Hv. cbn [bind py_setitem].
  exists (<["code" := v]> d). reflexivity.
Qed.

Lemma normalize_feature_total (feat : pyval) :
  geojson_feature feat = true -> exists feat', normalize_feature feat = Ok feat'.
Proof.
  destruct feat as [| | | | | |fd]; try discriminate.
  cbn [geojson_feature normalize_feature].
  destruct (properties_of fd) as [| | | | | |props]; try discriminate. intros _.
  rewrite py_contains_dict. cbn [bind].
  assert (H1 : exists props1,
             (if negb (bool_decide (is_Some (props !! "nom")))
              then has_name <- py_contains "name" (PyDict props) ;;
                   if (has_name : bool)
                   then v <- py_getitem (PyDict props) "name" ;;
                        py_setitem (PyDict props) "nom" v
                   else Ok (PyDict props)
              else Ok (PyDict props)) = Ok (PyDict props1)).
  { destruct (negb (bool_decide (is_Some (props !! "nom")))); [|exists props; reflexivity].
    rewrite py_contains_dict. cbn [bind].
    destruct (bool_decide (is_Some (props !! "name"))) eqn:E; [|exists props; reflexivity].
    apply bool_decide_eq_true in E. destruct E as [v Hv].
    cbn [py_getitem]. rewrite Hv. cbn [bind py_setitem].
    exists (<["nom" := v]> props). reflexivity. }
  destruct H1 as [props1 ->]. cbn [bind]. rewrite py_contains_dict. cbn [bind].
  destruct (negb (bool_decide (is_Some (props1 !! "code")))).
  - destruct (copy_code_dict ["code_insee"; "code_region"; "id"] props1) as [props2 ->].
    cbn [bind]. eexists. reflexivity.
  - cbn [bind]. eexists. reflexivity.
Qed.

Lemma map_result_total {A B} (f : A -> result B) (l : list A) :
  Forall (fun x => exists y, f x = Ok y) l -> exists l', map_result f l = Ok l'.
Proof.
  induction 1 as [|x l [y Hy] _ [l' Hl']]; [exists []; reflexivity|].
  exists (y :: l'). cbn [map_result]. rewrite Hy. cbn [bind]. rewrite Hl'. reflexivity.
Qed.

Lemma normalize_total (d : gmap string pyval) (l : list pyval) :
  d !! "features" = Some (PyList l) ->
  forallb geojson_feature l = true ->
  exists d', normalize d = Ok d'.
Proof.
  intros Hd Hl. unfold normalize, for_features. rewrite Hd.
  destruct (map_result_total normalize_feature l) as [l' Hl'].
  - apply Forall_forall. intros x Hx. apply normalize_feature_total.
    rewrite forallb_forall in Hl. apply Hl. apply list_elem_of_In. exact Hx.
  - rewrite Hl'. cbn [bind]. eexists. reflexivity.
Qed.

(** C6, as amended: the call returns the data of the first candidate, in the
    order of [candidates] (the six primary URLs, then the two fallback
    URLs), that succeeds, that is, whose body is a JSON object with a true
    "features" value and, in the fallback tier, whose normalisation raises
    nothing: the object itself from a primary source, the normalised object
    from a fallback source. The requests sent are those to the earlier
    candidates and to this one, so no later candidate is contacted. An
    earlier candidate that answered an object with a true "features" value
    can only be a fallback source whose normalisation raised; and the
    normalisation raises nothing on a list of GeoJSON features (objects
    whose "properties" is an object, null or absent). *)
Theorem fetch_returns_first_success
    (net : network) (pre post : list (tier * string)) (t : tier) (url : string)
    (d : gmap string pyval) :
  candidates = (pre ++ (t, url) :: post)%list ->
  Forall (fun c => fails (fst c) (net (snd c)) = true) pre ->
  net url = Json (PyDict d) ->
  has_features (PyDict d) = true ->
  (t = Fallback -> exists d', normalize d = Ok d') ->
  exists data s,
    fetch_regions_geojson net = (Returned data, s) /\
    (t = Primary -> data = PyDict d) /\
    (t = Fallback -> exists d', normalize d = Ok d' /\ data = PyDict d') /\
    contacted s = ((snd <$> pre) ++ [url])%list /\
    Forall (fun c => snd c ∉ contacted s) post /\
    Forall (fun c => forall d0, net (snd c) = Json (PyDict d0) ->
                                has_features (PyDict d0) = true ->
                                fst c = Fallback /\ exists e, normalize d0 = Raise e) pre /\
    (forall l, d !! "features" = Some (PyList l) -> forallb geojson_feature l = true ->
               exists d', normalize d = Ok d').
Proof.
  intros Hcs Hpre Hnet Hf Hnorm.
  assert (Ha : exists data,
             try_tier t (net url) = Success data /\
             (t = Primary -> data = PyDict d) /\
             (t = Fallback -> exists d', normalize d = Ok d' /\ data = PyDict d')).
  { rewrite Hnet. destruct t; cbn [try_tier].
    - exists (PyDict d). unfold try_primary. cbn [get_json]. rewrite Hf.
      split; [reflexivity|]. split; [reflexivity|discriminate].
    - destruct (Hnorm eq_refl) as [d' Hd'].
      exists (PyDict d'). unfold try_fallback. cbn [get_json].
      cbn [has_features] in Hf. rewrite Hf, Hd'.
      split; [reflexivity|]. split; [discriminate|].
      intros _. exists d'. split; reflexivity. }
  destruct Ha as (data & Ha & Hprim & Hfall).
  exists data.
  exists (mkResolver (last_raised net None pre) ((snd <$> pre) ++ [url])).
  split; [exact (fetch_first_success net pre post t url data Hcs Hpre Ha)|].
  cbn [contacted].
  split; [exact Hprim|]. split; [exact Hfall|]. split; [reflexivity|].
  split.
  - pose proof candidate_urls_distinct as D. rewrite Hcs in D.
    rewrite fmap_app, fmap_cons in D. cbn [snd] in D.
    rewrite (cons_middle url), app_assoc in D.
    apply NoDup_app in D. destruct D as (_ & D & _).
    apply Forall_forall. intros c Hc Hin. apply (D (snd c) Hin).
    apply list_elem_of_fmap. exists c. split; [reflexivity|exact Hc].
  - split; [|exact (normalize_total d)].
    eapply Forall_impl; [exact Hpre|]. intros [t0 u0] Hc d0 Hd0 Hf0. cbn [fst snd] in *.
    unfold fails in Hc. rewrite Hd0 in Hc. cbn [lacks_features] in Hc. rewrite Hf0 in Hc.
    destruct (raised t0 (Json (PyDict d0))) as [e|] eqn:R; [|discriminate].
    apply raised_iff in R. destruct R as [R|(-> & d1 & [= <-] & _ & N)]; [discriminate|].
    split; [reflexivity|]. exists e. exact N.
Qed.

(** The third candidate is the first to answer: the first three URLs are
    contacted, the last five are not. *)
Lemma fetch_returns_first_success_witness :
  exists s,
    fetch_regions_geojson
      (only "https://geo.api.gouv.fr/regions?format=geojson&geometry=contour"
            (PyDict two_features))
    = (Returned (PyDict two_features), s) /\
    contacted s = take 3 candidate_urls.
Proof.
  destruct (fetch_returns_first_success
              (only "https://geo.api.gouv.fr/regions?format=geojson&geometry=contour"
                    (PyDict two_features))
              (take 2 candidates) (drop 3 candidates) Primary
              "https://geo.api.gouv.fr/regions?format=geojson&geometry=contour"
              two_features)
    as (data & s & Hf & Hp & _ & Hc & _).
  - reflexivity.
  - repeat constructor.
  - reflexivity.
  - vm_compute. reflexivity.
  - discriminate.
  - exists s. rewrite (Hp eq_refl) in Hf. split; [exact Hf|exact Hc].
Defined.

(** C6 as stated fails, twice. A primary body whose "features" value is the
    string [abc] is returned, although it holds no list of features and the
    next candidate answers with a collection of two. And a fallback body
    that is a dict with a non-empty list of features is skipped when one of
    the features is not an object: here it is the only body there is, and
    the run is aborted. *)
Lemma first_feature_list_is_not_what_returns :
  fetch_regions_geojson text_features_first
  = (Returned (PyDict {[ "features" := PyStr "abc" ]}), mkResolver None (take 1 candidate_urls)) /\
  features_of {[ "features" := PyStr "abc" ]} = [] /\
  text_features_first "https://geo.api.gouv.fr/regions?format=geojson&geometry=contours&projection=WGS84"
  = Json (PyDict two_features) /\
  length (features_of two_features) = 2%nat /\
  number_feature "https://raw.githubusercontent.com/gregoiredavid/france-geojson/master/regions.geojson"
  = Json (PyDict {[ "features" := PyList [PyInt 5] ]}) /\
  fst (fetch_regions_geojson number_feature)
  = SystemExit (exhausted_msg +:+ "'int' object has no attribute 'get'").
Proof.
  split; [vm_compute; reflexivity|]. split; [reflexivity|]. split; [reflexivity|].
  split; [vm_compute; reflexivity|]. split; [reflexivity|]. vm_compute. reflexivity.
Qed.

(** A fallback source that names its regions by "name" and numbers them by
    "code_insee" is returned with "nom" and "code" filled in. *)
Example fallback_is_normalised :
  fst (fetch_regions_geojson
         (only "https://france-geojson.gregoiredavid.fr/repo/regions.geojson"
               (PyDict {[ "features" :=
                  PyList [ PyDict {[ "properties" :=
                     PyDict {[ "name" := PyStr "Corse";
                               "code_insee" := PyStr "94" ]} ]} ] ]})))
  = Returned
      (PyDict {[ "features" :=
         PyList [ PyDict {[ "properties" :=
            PyDict {[ "name" := PyStr "Corse"; "code_insee" := PyStr "94";
                      "nom" := PyStr "Corse"; "code" := PyStr "94" ]} ]} ] ]}).
Proof. vm_compute. reflexivity. Qed.

(** * Further properties *)

(** ** The resolver: order, provenance, exhaustion *)

Lemma first_success_split (net : network) (cs : list (tier * string)) :
  Forall (fun c => succeeded (attempt_of net c) = false) cs \/
  exists pre c post data,
    cs = (pre ++ c :: post)%list /\
    Forall (fun c => succeeded (attempt_of net c) = false) pre /\
    attempt_of net c = Success data.
Proof.
  induction cs as [|c cs IH]; [left; constructor|].
  destruct (attempt_of net c) as [data| |] eqn:Hc.
  - right. exists [], c, cs, data. split; [reflexivity|]. split; [constructor|exact Hc].
  - destruct IH as [IH|(pre & c' & post & data & -> & Hpre & Hc')].
    + left. constructor; [rewrite Hc; reflexivity|exact IH].
    + right. exists (c :: pre), c', post, data. split; [reflexivity|].
      split; [|exact Hc']. constructor; [rewrite Hc; reflexivity|exact Hpre].
  - destruct IH as [IH|(pre & c' & post & data & -> & Hpre & Hc')].
    + left. constructor; [rewrite Hc; reflexivity|exact IH].
    + right. exists (c :: pre), c', post, data. split; [reflexivity|].
      split; [|exact Hc']. constructor; [rewrite Hc; reflexivity|exact Hpre].
Qed.

Lemma snd_candidates : (snd <$> candidates) = (candidate_urls ++ fallbacks)%list.
Proof. reflexivity. Qed.

Lemma tiers_disjoint (u : string) : u ∈ candidate_urls -> u ∈ fallbacks -> False.
Proof.
  intros Hp Hf. pose proof candidate_urls_distinct as D. rewrite snd_candidates in D.
  apply NoDup_app in D. destruct D as (_ & D & _). exact (D u Hp Hf).
Qed.

Lemma try_primary_success (r : response) (data : pyval) :
  try_primary r = Success data -> r = Json data /\ has_features data = true.
Proof.
  unfold try_primary. destruct r as [e|e|e|body]; cbn [get_json]; try discriminate.
  destruct (has_features body) eqn:H; [|discriminate].
  intros [= <-]. split; [reflexivity|exact H].
Qed.

Lemma try_fallback_success (r : response) (data : pyval) :
  try_fallback r = Success data ->
  exists d d', r = Json (PyDict d) /\ truthy (dict_get d "features") = true /\
               normalize d = Ok d' /\ data = PyDict d'.
Proof.
  unfold try_fallback. destruct r as [e|e|e|body]; cbn [get_json]; try discriminate.
  destruct body as [| | | | | |d]; try discriminate.
  destruct (truthy (dict_get d "features")) eqn:H; [|discriminate].
  destruct (normalize d) as [d'|e] eqn:N; [|discriminate].
  intros [= <-]. exists d, d'. repeat split; assumption.
Qed.

Lemma map_result_length {A B} (f : A -> result B) (l : list A) (l' : list B) :
  map_result f l = Ok l' -> length l' = length l.
Proof.
  revert l'. induction l as [|a l IH]; intros l'; cbn [map_result].
  - intros [= <-]. reflexivity.
  - destruct (f a); [|discriminate]. cbn [bind].
    destruct (map_result f l) as [bs|]; [|discriminate]. cbn [bind].
    intros [= <-]. cbn [length]. rewrite (IH bs eq_refl). reflexivity.
Qed.

Lemma map_result_Forall {A B} (f : A -> result B) (l : list A) (l' : list B) :
  map_result f l = Ok l' -> Forall2 (fun x y => f x = Ok y) l l'.
Proof.
  revert l'. induction l as [|a l IH]; intros l'; cbn [map_result].
  - intros [= <-]. constructor.
  - destruct (f a) as [b|] eqn:Fa; [|discriminate]. cbn [bind].
    destruct (map_result f l) as [bs|]; [|discriminate]. cbn [bind].
    intros [= <-]. constructor; [exact Fa|apply IH; reflexivity].
Qed.

(** A loop over features that returns on a true "features" value ran over
    a non-empty list. *)
Lemma for_features_list (body : pyval -> result pyval) (d d' : gmap string pyval) :
  (forall s, body (PyStr s) = Raise (no_attribute (PyStr s) "get")) ->
  truthy (dict_get d "features") = true ->
  for_features body d = Ok d' ->
  exists l l', d !! "features" = Some (PyList l) /\ l <> [] /\
               map_result body l = Ok l' /\ d' = <["features" := PyList l']> d.
Proof.
  intros Hstr Ht. unfold for_features, dict_get in *.
  destruct (d !! "features") as [v|]; [|discriminate].
  cbn [default from_option] in Ht. unfold id in Ht.
  destruct v as [| | | |s|l|m]; cbn [py_iter bind]; try discriminate.
  - destruct (utf8_chars s) as [|ch chs] eqn:E.
    + destruct s as [|c s]; [discriminate|]. cbn [utf8_chars] in E.
      destruct (utf8_chars s); [discriminate|].
      destruct (continues s); cbv iota in E; discriminate.
    + cbn [fmap list_fmap map_result]. rewrite Hstr. discriminate.
  - destruct (map_result body l) as [l'|] eqn:E; [|discriminate].
    cbn [bind]. intros [= <-]. exists l, l'.
    split; [reflexivity|]. split; [|split; [exact E|reflexivity]].
    intros ->. discriminate.
  - cbn [truthy] in Ht. destruct (map_to_list m) as [|[k v] kvs]; [discriminate|].
    cbn [fmap list_fmap map_result fst]. rewrite Hstr. discriminate.
Qed.

Lemma normalize_list (d d' : gmap string pyval) :
  truthy (dict_get d "features") = true ->
  normalize d = Ok d' ->
  exists l l', d !! "features" = Some (PyList l) /\ l <> [] /\
               map_result normalize_feature l = Ok l' /\
               d' = <["features" := PyList l']> d.
Proof. apply for_features_list. reflexivity. Qed.

(** X1: what the call returns is the body of the last request it sent, as
    received when that request went to a primary URL and after the
    normalisation when it went to a fallback URL; either way it is a dict
    whose "features" value is true. *)
Theorem fetch_returns_last_body (net : network) (data : pyval) (s : resolver) :
  fetch_regions_geojson net = (Returned data, s) ->
  has_features data = true /\
  exists url,
    last (contacted s) = Some url /\
    ((url ∈ candidate_urls /\ net url = Json data) \/
     (url ∈ fallbacks /\
      exists d d', net url = Json (PyDict d) /\ normalize d = Ok d' /\ data = PyDict d')).
Proof.
  rewrite fetch_as_loop.
  destruct (first_success_split net candidates)
    as [Hall|(pre & [t url] & post & data' & Hcs & Hpre & Hc)].
  - rewrite (try_candidates_fail net candidates _ Hall). discriminate.
  - rewrite Hcs, (try_candidates_first net pre post (t, url) data' _ Hpre Hc).
    cbn [finish contacted last_err app snd]. intros [= <- <-]. cbn [contacted].
    assert (Hin : (t, url) ∈ candidates)
      by (rewrite Hcs; apply elem_of_app; right; apply list_elem_of_here).
    unfold candidates in Hin. apply elem_of_app in Hin.
    unfold attempt_of in Hc. cbn [fst snd] in Hc.
    destruct Hin as [Hin|Hin]; apply list_elem_of_fmap in Hin;
      destruct Hin as (u & [= -> ->] & Hu); cbn [try_tier] in Hc.
    + apply try_primary_success in Hc. destruct Hc as [Hr Hf].
      split; [exact Hf|]. exists u. split; [apply last_snoc|].
      left. split; assumption.
    + apply try_fallback_success in Hc. destruct Hc as (d & d' & Hr & Ht & Hn & ->).
      destruct (normalize_list d d' Ht Hn) as (l & l' & Hl & Hne & Hm & ->).
      split.
      * cbn [has_features]. unfold dict_get. rewrite lookup_insert_eq. cbn.
        destruct l' as [|x l']; [|reflexivity].
        apply map_result_length in Hm. destruct l; [contradiction|discriminate].
      * exists u. split; [apply last_snoc|]. right. split; [exact Hu|].
        exists d, (<["features" := PyList l']> d). repeat split; assumption.
Qed.

Lemma fetch_returns_last_body_witness :
  has_features (PyDict two_features) = true.
Proof.
  destruct (fetch_returns_last_body
              (only "https://geo.api.gouv.fr/regions?format=geojson&geometry=contour"
                    (PyDict two_features))
              (PyDict two_features)
              (mkResolver (Some timed_out) (take 3 candidate_urls))) as [H _].
  - vm_compute. reflexivity.
  - exact H.
Defined.

Lemma primary_all_fail (net : network) :
  Forall (fun c => succeeded (attempt_of net c) = false) (pair Primary <$> candidate_urls) ->
  Forall (fun u => succeeded (try_primary (net u)) = false) candidate_urls.
Proof. intros H. apply Forall_fmap in H. exact H. Qed.

(** X2: the requests of a run are an initial, non-empty segment of the fixed
    list (the six primary URLs, then the two fallback URLs); the run stops
    before the end of the list only by returning; and a fallback URL is
    contacted only when every primary candidate has failed. *)
Theorem fetch_contacts_in_order (net : network) :
  exists sent rest,
    (candidate_urls ++ fallbacks)%list = (sent ++ rest)%list /\
    contacted (snd (fetch_regions_geojson net)) = sent /\
    sent <> [] /\
    (rest <> [] -> exists data, fst (fetch_regions_geojson net) = Returned data) /\
    (forall u, u ∈ fallbacks -> u ∈ sent ->
               Forall (fun u' => succeeded (try_primary (net u')) = false) candidate_urls).
Proof.
  rewrite fetch_as_loop. unfold candidates. rewrite try_candidates_app.
  destruct (first_success_split net (pair Primary <$> candidate_urls))
    as [Hall|(pre & c & post & data & Hcs & Hpre & Hc)].
  - rewrite (try_candidates_fail net _ _ Hall). cbn [last_err contacted app].
    rewrite <- list_fmap_compose.
    replace ((snd ∘ pair Primary) <$> candidate_urls) with candidate_urls
      by (symmetry; apply list_fmap_id).
    destruct (first_success_split net (pair Fallback <$> fallbacks))
      as [Hall'|(pre' & c' & post' & data' & Hcs' & Hpre' & Hc')].
    + rewrite (try_candidates_fail net _ _ Hall'). cbn [finish snd fst contacted].
      exists (candidate_urls ++ fallbacks)%list, [].
      rewrite <- list_fmap_compose.
      replace ((snd ∘ pair Fallback) <$> fallbacks) with fallbacks
        by (symmetry; apply list_fmap_id).
      split; [rewrite app_nil_r; reflexivity|]. split; [reflexivity|].
      split; [discriminate|]. split; [intros H; contradiction|].
      intros u _ _. exact (primary_all_fail net Hall).
    + rewrite Hcs', (try_candidates_first net pre' post' c' data' _ Hpre' Hc').
      cbn [finish snd fst contacted].
      exists (candidate_urls ++ (snd <$> pre') ++ [snd c'])%list, (snd <$> post').
      split.
      { apply (f_equal (fmap snd)) in Hcs'.
        rewrite <- list_fmap_compose, fmap_app, fmap_cons in Hcs'.
        replace ((snd ∘ pair Fallback) <$> fallbacks) with fallbacks in Hcs'
          by (symmetry; apply list_fmap_id).
        rewrite Hcs', <- !app_assoc. reflexivity. }
      split; [reflexivity|]. split; [discriminate|].
      split; [intros _; exists data'; reflexivity|].
      intros u _ _. exact (primary_all_fail net Hall).
  - rewrite Hcs, (try_candidates_first net pre post c data _ Hpre Hc).
    cbn [finish snd fst contacted app].
    exists ((snd <$> pre) ++ [snd c])%list, ((snd <$> post) ++ fallbacks)%list.
    assert (E : candidate_urls = ((snd <$> pre) ++ snd c :: (snd <$> post))%list).
    { apply (f_equal (fmap snd)) in Hcs.
      rewrite <- list_fmap_compose, fmap_app, fmap_cons in Hcs.
      replace ((snd ∘ pair Primary) <$> candidate_urls) with candidate_urls in Hcs
        by (symmetry; apply list_fmap_id).
      exact Hcs. }
    split; [rewrite E at 1; rewrite <- !app_assoc; reflexivity|].
    split; [reflexivity|].
    split; [intros H; apply app_eq_nil in H; destruct H; discriminate|].
    split; [intros _; exists data; reflexivity|].
    intros u Hf Hs. exfalso. apply (tiers_disjoint u); [|exact Hf].
    rewrite E. apply elem_of_app. apply elem_of_app in Hs.
    destruct Hs as [Hs|Hs]; [left; exact Hs|right].
    apply list_elem_of_singleton in Hs. rewrite Hs. apply list_elem_of_here.
Qed.

Lemma try_candidates_none (net : network) (cs : list (tier * string)) (s s' : resolver) :
  try_candidates net cs s = (None, s') ->
  Forall (fun c => succeeded (attempt_of net c) = false) cs.
Proof.
  destruct (first_success_split net cs) as [H|(pre & c & post & data & -> & Hpre & Hc)];
    [intros _; exact H|].
  rewrite (try_candidates_first net pre post c data s Hpre Hc). discriminate.
Qed.

(** X3: the run is aborted exactly when no candidate of either tier
    succeeds, and it returns exactly when one does: a single working source,
    wherever it stands in the list, is enough. *)
Theorem fetch_exits_iff_all_fail (net : network) :
  ((exists msg, fst (fetch_regions_geojson net) = SystemExit msg) <->
   Forall (fun c => succeeded (attempt_of net c) = false) candidates) /\
  ((exists data, fst (fetch_regions_geojson net) = Returned data) <->
   Exists (fun c => succeeded (attempt_of net c) = true) candidates).
Proof.
  rewrite fetch_as_loop.
  destruct (first_success_split net candidates)
    as [Hall|(pre & c & post & data & Hcs & Hpre & Hc)].
  - rewrite (try_candidates_fail net candidates _ Hall). cbn [finish fst].
    split; split.
    + intros _. exact Hall.
    + intros _. eexists. reflexivity.
    + intros [data H]. discriminate.
    + intros H. apply Exists_exists in H. destruct H as (c & Hin & Hc).
      rewrite Forall_forall in Hall. rewrite (Hall c Hin) in Hc. discriminate.
  - assert (Hin : c ∈ candidates)
      by (rewrite Hcs; apply elem_of_app; right; apply list_elem_of_here).
    assert (Hs : succeeded (attempt_of net c) = true) by (rewrite Hc; reflexivity).
    replace (try_candidates net candidates (mkResolver None []))
      with (try_candidates net (pre ++ c :: post) (mkResolver None []))
      by (rewrite Hcs; reflexivity).
    rewrite (try_candidates_first net pre post c data _ Hpre Hc).
    cbn [finish fst]. split; split.
    + intros [msg H]. discriminate.
    + intros H. rewrite Forall_forall in H. rewrite (H c Hin) in Hs. discriminate.
    + intros _. apply Exists_exists. exists c. split; assumption.
    + intros _. exists data. reflexivity.
Qed.

(** ** The normalisation of a fallback source *)

Lemma normalize_feature_props (fd : gmap string pyval) :
  normalize_feature (PyDict fd)
  = (props <- normalize_props (properties_of fd) ;;
     Ok (PyDict (<["properties" := props]> fd))).
Proof.
  unfold normalize_feature, normalize_props.
  destruct (py_contains "nom" (properties_of fd)) as [has_nom|]; [|reflexivity].
  cbn [bind].
  destruct (if negb has_nom
            then has_name <- py_contains "name" (properties_of fd) ;;
                 if (has_name : bool)
                 then v <- py_getitem (properties_of fd) "name" ;;
                      py_setitem (properties_of fd) "nom" v
                 else Ok (properties_of fd)
            else Ok (properties_of fd)) as [props1|]; [|reflexivity].
  cbn [bind].
  destruct (py_contains "code" props1) as [has_code|]; [|reflexivity].
  cbn [bind]. destruct (negb has_code); reflexivity.
Qed.

Lemma bool_decide_is_Some {A} (o : option A) :
  bool_decide (is_Some o) = match o with Some _ => true | None => false end.
Proof.
  destruct o.
  - apply bool_decide_eq_true. eexists. reflexivity.
  - apply bool_decide_eq_false. intros [x H]. discriminate.
Qed.

(** [copy_code] on a dict without "code": the first alternate key found. *)
Lemma copy_code_first (keys : list string) (props : gmap string pyval) :
  copy_code keys (PyDict props)
  = Ok (PyDict match first_present keys props with
               | Some v => <["code" := v]> props
               | None => props
               end).
Proof.
  induction keys as [|k keys IH]; [reflexivity|].
  cbn [copy_code first_present py_contains bind]. rewrite bool_decide_is_Some.
  destruct (props !! k) as [v|] eqn:E; [|exact IH].
  cbn [py_getitem]. rewrite E. reflexivity.
Qed.

(** The normalisation of a dict, in closed form. *)
Lemma normalize_props_dict (props : gmap string pyval) :
  normalize_props (PyDict props) = Ok (PyDict (normalized props)).
Proof.
  unfold normalize_props, normalized, set_if. cbn [py_contains bind first_present].
  rewrite bool_decide_is_Some.
  destruct (props !! "nom") as [n|] eqn:Hnom; cbn [negb bind py_contains].
  - rewrite (insert_id props "nom" n Hnom).
    rewrite bool_decide_is_Some.
    destruct (props !! "code") as [c|] eqn:Hcode; cbn [negb].
    + rewrite (insert_id props "code" c Hcode). reflexivity.
    + rewrite copy_code_first. reflexivity.
  - rewrite bool_decide_is_Some.
    destruct (props !! "name") as [n|] eqn:Hname.
    + cbn [py_getitem]. rewrite Hname. cbn [bind py_setitem py_contains].
      rewrite bool_decide_is_Some, lookup_insert_ne by discriminate.
      destruct (props !! "code") as [c|] eqn:Hcode; cbn [negb].
      * rewrite (insert_id (<["nom" := n]> props) "code" c); [reflexivity|].
        rewrite lookup_insert_ne by discriminate. exact Hcode.
      * rewrite copy_code_first. cbn [first_present].
        rewrite !lookup_insert_ne by discriminate. reflexivity.
    + cbn [bind py_contains]. rewrite bool_decide_is_Some.
      destruct (props !! "code") as [c|] eqn:Hcode; cbn [negb].
      * rewrite (insert_id props "code" c Hcode). reflexivity.
      * rewrite copy_code_first. reflexivity.
Qed.

Lemma set_if_lookup (k : string) (v : option pyval) (props : gmap string pyval) :
  set_if k v props !! k = match v with Some x => Some x | None => props !! k end.
Proof. destruct v; cbn [set_if]; [apply lookup_insert_eq|reflexivity]. Qed.

Lemma set_if_lookup_ne (k j : string) (v : option pyval) (props : gmap string pyval) :
  k <> j -> set_if k v props !! j = props !! j.
Proof. intros H. destruct v; cbn [set_if]; [apply lookup_insert_ne; exact H|reflexivity]. Qed.

Lemma normalized_nom (props : gmap string pyval) :
  normalized props !! "nom" = first_present ["nom"; "name"] props.
Proof.
  unfold normalized. rewrite set_if_lookup_ne by discriminate. rewrite set_if_lookup.
  cbn [first_present].
  destruct (props !! "nom") as [n|]; [reflexivity|].
  destruct (props !! "name"); reflexivity.
Qed.

Lemma normalized_code (props : gmap string pyval) :
  normalized props !! "code"
  = first_present ["code"; "code_insee"; "code_region"; "id"] props.
Proof.
  unfold normalized. rewrite set_if_lookup.
  destruct (first_present ["code"; "code_insee"; "code_region"; "id"] props) eqn:E;
    [reflexivity|].
  rewrite set_if_lookup_ne by discriminate.
  cbn [first_present] in E. destruct (props !! "code"); [discriminate|reflexivity].
Qed.

Lemma normalized_other (props : gmap string pyval) (k : string) :
  k <> "nom" -> k <> "code" -> normalized props !! k = props !! k.
Proof.
  intros H1 H2. unfold normalized. rewrite !set_if_lookup_ne by congruence. reflexivity.
Qed.

(** X4: on a feature whose property bag is an object, the normalisation
    returns the feature with "nom" set to the first of nom, name that the
    bag has, and "code" set to the first of code, code_insee, code_region,
    id that it has; a key that is present, whatever its value, is never
    overwritten, every other property and every other member of the feature
    is left as it was. *)
Theorem normalize_feature_fills_nom_and_code (fd props : gmap string pyval) :
  properties_of fd = PyDict props ->
  exists props',
    normalize_feature (PyDict fd) = Ok (PyDict (<["properties" := PyDict props']> fd)) /\
    props' !! "nom" = first_present ["nom"; "name"] props /\
    props' !! "code" = first_present ["code"; "code_insee"; "code_region"; "id"] props /\
    (forall k, k <> "nom" -> k <> "code" -> props' !! k = props !! k) /\
    (forall v, props !! "nom" = Some v -> props' !! "nom" = Some v) /\
    (forall v, props !! "code" = Some v -> props' !! "code" = Some v).
Proof.
  intros Hp. exists (normalized props).
  rewrite normalize_feature_props, Hp, normalize_props_dict. cbn [bind].
  split; [reflexivity|]. split; [apply normalized_nom|]. split; [apply normalized_code|].
  split; [intros k; apply normalized_other|]. split.
  - intros v Hv. rewrite normalized_nom. cbn [first_present]. rewrite Hv. reflexivity.
  - intros v Hv. rewrite normalized_code. cbn [first_present]. rewrite Hv. reflexivity.
Qed.

Lemma normalize_feature_fills_nom_and_code_witness :
  exists props',
    normalize_feature
      (PyDict {[ "properties" :=
                   PyDict {[ "name" := PyStr "Corse"; "id" := PyInt 94 ]} ]})
    = Ok (PyDict {[ "properties" := PyDict props' ]}) /\
    props' !! "nom" = Some (PyStr "Corse") /\
    props' !! "code" = Some (PyInt 94).
Proof.
  destruct (normalize_feature_fills_nom_and_code
              {[ "properties" := PyDict {[ "name" := PyStr "Corse"; "id" := PyInt 94 ]} ]}
              {[ "name" := PyStr "Corse"; "id" := PyInt 94 ]})
    as (props' & Hn & Hnom & Hcode & _).
  - vm_compute. reflexivity.
  - exists props'. split; [|split].
    + rewrite Hn. rewrite insert_singleton_eq. reflexivity.
    + rewrite Hnom. vm_compute. reflexivity.
    + rewrite Hcode. vm_compute. reflexivity.
Defined.

(** *** Normalising twice *)

Lemma first_present_ext (keys : list string) (p q : gmap string pyval) :
  (forall k, k ∈ keys -> p !! k = q !! k) -> first_present keys p = first_present keys q.
Proof.
  induction keys as [|k keys IH]; intros H; [reflexivity|].
  cbn [first_present]. rewrite (H k) by apply list_elem_of_here.
  destruct (q !! k); [reflexivity|].
  apply IH. intros j Hj. apply H. apply list_elem_of_further. exact Hj.
Qed.

Lemma normalized_idem (props : gmap string pyval) :
  normalized (normalized props) = normalized props.
Proof.
  apply map_eq. intros k.
  destruct (String.eqb_spec k "nom") as [->|Hn].
  { rewrite normalized_nom. cbn [first_present]. rewrite normalized_nom.
    cbn [first_present].
    destruct (props !! "nom") as [n|]; [reflexivity|].
    rewrite normalized_other by discriminate.
    destruct (props !! "name"); reflexivity. }
  destruct (String.eqb_spec k "code") as [->|Hc].
  { rewrite normalized_code. cbn [first_present]. rewrite normalized_code.
    cbn [first_present].
    destruct (props !! "code") as [c|]; [reflexivity|].
    rewrite !normalized_other by discriminate.
    destruct (props !! "code_insee"); [reflexivity|].
    destruct (props !! "code_region"); [reflexivity|].
    destruct (props !! "id"); reflexivity. }
  rewrite !normalized_other by assumption. reflexivity.
Qed.

Lemma copy_code_same (keys : list string) (p p' : pyval) :
  (forall d, p <> PyDict d) -> copy_code keys p = Ok p' -> p' = p.
Proof.
  intros Hp. induction keys as [|k keys IH]; cbn [copy_code].
  - intros [= <-]. reflexivity.
  - destruct (py_contains k p) as [[]|]; cbn [bind]; [|exact IH|discriminate].
    destruct p; cbn [py_getitem bind]; try discriminate.
    exfalso. eapply Hp. reflexivity.
Qed.

(** A property bag that is not an object comes back as it was, if at all. *)
Lemma normalize_props_same (p p' : pyval) :
  (forall d, p <> PyDict d) -> normalize_props p = Ok p' -> p' = p.
Proof.
  intros Hp. unfold normalize_props.
  destruct (py_contains "nom" p) as [has_nom|]; cbn [bind]; [|discriminate].
  assert (H1 : forall r,
             (if negb has_nom
              then has_name <- py_contains "name" p ;;
                   if (has_name : bool)
                   then v <- py_getitem p "name" ;; py_setitem p "nom" v
                   else Ok p
              else Ok p) = Ok r -> r = p).
  { intros r. destruct (negb has_nom); [|intros [= <-]; reflexivity].
    destruct (py_contains "name" p) as [[]|]; cbn [bind];
      [|intros [= <-]; reflexivity|discriminate].
    destruct p; cbn [py_getitem bind]; try discriminate.
    exfalso. eapply Hp. reflexivity. }
  destruct (if negb has_nom
            then has_name <- py_contains "name" p ;;
                 if (has_name : bool)
                 then v <- py_getitem p "name" ;; py_setitem p "nom" v
                 else Ok p
            else Ok p) as [r|]; [|discriminate].
  rewrite (H1 r eq_refl). cbn [bind].
  destruct (py_contains "code" p) as [has_code|]; cbn [bind]; [|discriminate].
  destruct (negb has_code); [apply copy_code_same; exact Hp|].
  intros [= <-]. reflexivity.
Qed.

Lemma normalize_props_idem (p p' : pyval) :
  normalize_props p = Ok p' -> normalize_props p' = Ok p'.
Proof.
  destruct p as [| | | | | |props].
  7: { rewrite normalize_props_dict. intros [= <-].
       rewrite normalize_props_dict, normalized_idem. reflexivity. }
  all: intros H; pose proof H as H';
       apply normalize_props_same in H'; [subst p'; exact H|discriminate].
Qed.

(** The bag [normalize_feature] stores is the bag it reads back. *)
Lemma properties_of_stored (fd : gmap string pyval) (p' : pyval) :
  normalize_props (properties_of fd) = Ok p' ->
  properties_of (<["properties" := p']> fd) = p'.
Proof.
  destruct (properties_of fd) as [| | | | | |props] eqn:Hp.
  7: { rewrite normalize_props_dict. intros [= <-]. apply properties_of_insert. }
  all: intros H; apply normalize_props_same in H; [|discriminate]; subst p';
       unfold properties_of, dict_get_or, py_or in Hp |- *;
       rewrite lookup_insert_eq; cbn [default from_option]; unfold id;
       destruct (truthy (default (PyDict ∅) (fd !! "properties"))) eqn:T;
       [|discriminate];
       rewrite Hp in T; rewrite T; reflexivity.
Qed.

Lemma normalize_feature_idem (feat feat' : pyval) :
  normalize_feature feat = Ok feat' -> normalize_feature feat' = Ok feat'.
Proof.
  destruct feat as [| | | | | |fd]; try discriminate.
  rewrite normalize_feature_props.
  destruct (normalize_props (properties_of fd)) as [p'|] eqn:Hn; [|discriminate].
  cbn [bind]. intros [= <-].
  rewrite normalize_feature_props, (properties_of_stored fd p' Hn).
  rewrite (normalize_props_idem _ _ Hn). cbn [bind].
  rewrite insert_insert_eq. reflexivity.
Qed.

Lemma for_features_idem (body : pyval -> result pyval) (d : gmap string pyval) :
  (forall x y, body x = Ok y -> body y = Ok y) ->
  (d' <- for_features body d ;; for_features body d') = for_features body d.
Proof.
  intros Hb. unfold for_features.
  destruct (d !! "features") as [v|] eqn:Hf.
  - destruct v as [| | | |s|feats|m];
      try (cbn [py_iter bind]; reflexivity).
    + cbn [py_iter bind].
      destruct (map_result body (PyStr <$> utf8_chars s)) eqn:E;
        cbn [bind]; [|reflexivity].
      rewrite Hf. cbn [py_iter bind]. rewrite E. reflexivity.
    + destruct (map_result body feats) as [feats'|e] eqn:Hm; cbn [bind];
        [|reflexivity].
      rewrite lookup_insert_eq.
      rewrite (map_result_idem body feats feats' Hb Hm).
      cbn [bind]. rewrite insert_insert_eq. reflexivity.
    + cbn [py_iter bind].
      destruct (map_result body (PyStr <$> (fst <$> map_to_list m))) eqn:E;
        cbn [bind]; [|reflexivity].
      rewrite Hf. cbn [py_iter bind]. rewrite E. reflexivity.
  - cbn [bind]. rewrite Hf. reflexivity.
Qed.

(** X5: normalising a normalised collection changes nothing, whatever the
    collection: a second pass finds "nom" wherever it could be filled and
    "code" wherever one of the alternate keys was present. *)
Theorem normalize_idempotent (d : gmap string pyval) :
  (d' <- normalize d ;; normalize d') = normalize d.
Proof. apply for_features_idem. exact normalize_feature_idem. Qed.

(** *** What a normalised collection looks like *)

Lemma properties_of_not_none (fd : gmap string pyval) : properties_of fd <> PyNone.
Proof.
  unfold properties_of, py_or.
  destruct (truthy (dict_get_or fd "properties" (PyDict ∅))) eqn:T; [|discriminate].
  intros E. rewrite E in T. discriminate.
Qed.

Lemma normalize_props_not_none (p p' : pyval) :
  p <> PyNone -> normalize_props p = Ok p' -> p' <> PyNone.
Proof.
  intros Hp H. destruct p as [| | | | | |props].
  7: { rewrite normalize_props_dict in H. injection H as <-. discriminate. }
  all: apply normalize_props_same in H; [subst p'; exact Hp|discriminate].
Qed.

Lemma normalize_feature_bag (feat feat' : pyval) :
  normalize_feature feat = Ok feat' ->
  exists fd p, feat' = PyDict fd /\ fd !! "properties" = Some p /\ p <> PyNone.
Proof.
  destruct feat as [| | | | | |fd]; try discriminate.
  rewrite normalize_feature_props.
  destruct (normalize_props (properties_of fd)) as [p'|] eqn:Hn; [|discriminate].
  cbn [bind]. intros [= <-].
  exists (<["properties" := p']> fd), p'.
  split; [reflexivity|]. split; [apply lookup_insert_eq|].
  exact (normalize_props_not_none _ _ (properties_of_not_none fd) Hn).
Qed.

(** X6: when the normalisation of a collection with a true "features" value
    returns, that value was a non-empty list and is replaced by a list of as
    many features, each of them an object with a "properties" member that is
    not null; the other members of the collection are left as they were. *)
Theorem normalize_gives_property_bags (d d' : gmap string pyval) :
  truthy (dict_get d "features") = true ->
  normalize d = Ok d' ->
  exists l l',
    d !! "features" = Some (PyList l) /\
    d' !! "features" = Some (PyList l') /\
    l' <> [] /\ length l' = length l /\
    Forall (fun feat => exists fd p,
                feat = PyDict fd /\ fd !! "properties" = Some p /\ p <> PyNone) l' /\
    (forall k, k <> "features" -> d' !! k = d !! k).
Proof.
  intros Ht Hn.
  destruct (normalize_list d d' Ht Hn) as (l & l' & Hl & Hne & Hm & ->).
  exists l, l'. split; [exact Hl|]. split; [apply lookup_insert_eq|].
  pose proof (map_result_length _ _ _ Hm) as Hlen.
  split; [intros ->; destruct l; [contradiction|discriminate]|].
  split; [exact Hlen|]. split.
  - apply map_result_Forall in Hm. clear -Hm.
    induction Hm as [|x y l l' Hxy _ IH]; constructor; [|exact IH].
    exact (normalize_feature_bag x y Hxy).
  - intros k Hk. apply lookup_insert_ne. congruence.
Qed.

Lemma normalize_gives_property_bags_witness :
  exists l',
    (d' <- normalize {[ "features" := PyList [PyDict ∅] ]} ;; Ok (d' !! "features"))
    = Ok (Some (PyList l')) /\ length l' = 1%nat.
Proof.
  destruct (normalize_gives_property_bags
              {[ "features" := PyList [PyDict ∅] ]}
              {[ "features" := PyList [PyDict {[ "properties" := PyDict ∅ ]}] ]})
    as (l & l' & Hl & Hl' & _ & Hlen & _).
  - vm_compute. reflexivity.
  - vm_compute. reflexivity.
  - exists [PyDict {[ "properties" := PyDict ∅ ]}]. split; vm_compute; reflexivity.
Defined.

Lemma map_result_raise {A B} (f : A -> result B) (l : list A) (x : A) :
  x ∈ l -> (exists e, f x = Raise e) -> exists e, map_result f l = Raise e.
Proof.
  intros Hin [e He]. induction l as [|y l IH].
  - apply elem_of_nil in Hin. contradiction.
  - cbn [map_result]. apply elem_of_cons in Hin. destruct Hin as [<-|Hin].
    + rewrite He. exists e. reflexivity.
    + destruct (f y) as [b|e']; cbn [bind]; [|exists e'; reflexivity].
      destruct (IH Hin) as [e'' E]. rewrite E. exists e''. reflexivity.
Qed.

(** X7: the two tiers do not accept the same bodies. A JSON object whose
    "features" list holds something that is not an object is returned as it
    is by a primary candidate, while a fallback candidate fails on it: the
    normalisation raises inside the [try], the exception is caught and the
    candidate is passed over. *)
Theorem fallback_rejects_what_primary_accepts
    (d : gmap string pyval) (l : list pyval) (x : pyval) :
  d !! "features" = Some (PyList l) ->
  x ∈ l ->
  (forall fd, x <> PyDict fd) ->
  try_primary (Json (PyDict d)) = Success (PyDict d) /\
  exists e, try_fallback (Json (PyDict d)) = Failure e.
Proof.
  intros Hd Hx Hnd.
  assert (Ht : truthy (dict_get d "features") = true).
  { unfold dict_get. rewrite Hd. destruct l; [|reflexivity].
    apply elem_of_nil in Hx. contradiction. }
  split.
  - unfold try_primary. cbn [get_json has_features]. rewrite Ht. reflexivity.
  - unfold try_fallback. cbn [get_json]. rewrite Ht.
    unfold normalize, for_features. rewrite Hd.
    destruct (map_result_raise normalize_feature l x Hx) as [e He].
    + exists (no_attribute x "get").
      destruct x; try reflexivity. exfalso. eapply Hnd. reflexivity.
    + rewrite He. exists e. reflexivity.
Qed.

Lemma fallback_rejects_what_primary_accepts_witness :
  try_primary (Json (PyDict {[ "features" := PyList [PyInt 1] ]}))
  = Success (PyDict {[ "features" := PyList [PyInt 1] ]}) /\
  exists e, try_fallback (Json (PyDict {[ "features" := PyList [PyInt 1] ]})) = Failure e.
Proof.
  apply (fallback_rejects_what_primary_accepts _ [PyInt 1] (PyInt 1)).
  - vm_compute. reflexivity.
  - apply list_elem_of_here.
  - discriminate.
Defined.

(** *** From a fallback source to an enriched feature *)

(** X8: a feature of a fallback source that carries its name under "name"
    only, and whose name is a key of the table, comes out of the
    normalisation and the enrichment with "nom" equal to that name, "name"
    untouched and the table's population and rounded density: the two passes
    compose without an error. *)
Theorem fallback_name_only_feature_is_enriched
    (fd props : gmap string pyval) (name : string) (m : meta) :
  properties_of fd = PyDict props ->
  props !! "nom" = None ->
  props !! "name" = Some (PyStr name) ->
  mapping !! name = Some m ->
  exists f1 f2,
    normalize_feature (PyDict fd) = Ok f1 /\
    enrich_feature f1 = Ok f2 /\
    property f2 "nom" = Some (PyStr name) /\
    property f2 "name" = Some (PyStr name) /\
    property f2 "population" = Some (PyInt (population m)) /\
    property f2 "densite_km2" = Some (PyFloat (table_density m)).
Proof.
  intros Hp Hnom Hname Hm.
  assert (Hn : normalized props !! "nom" = Some (PyStr name)).
  { rewrite normalized_nom. cbn [first_present]. rewrite Hnom, Hname. reflexivity. }
  assert (Hk : join_key (normalized props) = PyStr name).
  { unfold join_key, py_or, dict_get. rewrite Hn. cbn [default from_option]. unfold id.
    rewrite normalized_other, Hname by discriminate. cbn [default from_option]. unfold id.
    destruct (truthy (PyStr name)); reflexivity. }
  exists (PyDict (<["properties" := PyDict (normalized props)]> fd)).
  exists (PyDict (<["properties" := PyDict (with_metadata m (normalized props))]>
                    (<["properties" := PyDict (normalized props)]> fd))).
  split.
  { rewrite normalize_feature_props, Hp, normalize_props_dict. reflexivity. }
  split.
  { apply (enrich_feature_matched _ (normalized props) name m);
      [apply properties_of_insert|exact Hk|exact Hm]. }
  rewrite !property_insert.
  destruct (with_metadata_lookup m (normalized props)) as (Hpop & _ & Hdens & _).
  split; [|split; [|split; [exact Hpop|exact Hdens]]].
  - unfold with_metadata. rewrite !lookup_insert_ne by discriminate. exact Hn.
  - unfold with_metadata. rewrite !lookup_insert_ne by discriminate.
    rewrite normalized_other by discriminate. exact Hname.
Qed.

Lemma fallback_name_only_feature_is_enriched_witness :
  exists f1 f2,
    normalize_feature (PyDict (named_feature "name" "Corse")) = Ok f1 /\
    enrich_feature f1 = Ok f2 /\
    property f2 "nom" = Some (PyStr "Corse") /\
    property f2 "population" = Some (PyInt 351000).
Proof.
  destruct (fallback_name_only_feature_is_enriched
              (named_feature "name" "Corse") {[ "name" := PyStr "Corse" ]}
              "Corse" (mkMeta 351000 8680))
    as (f1 & f2 & H1 & H2 & H3 & _ & H5 & _).
  - vm_compute. reflexivity.
  - vm_compute. reflexivity.
  - vm_compute. reflexivity.
  - vm_compute. reflexivity.
  - exists f1, f2. repeat split; assumption.
Defined.

(** ** The enricher: when it raises, what it leaves alone *)

Lemma enrich_feature_ok_iff (feat : pyval) :
  (exists feat', enrich_feature feat = Ok feat') <-> enrichable feat = true.
Proof.
  destruct feat as [| | | | | |fd]; cbn [enrich_feature enrichable];
    try (split; [intros [r Hr]; discriminate|discriminate]).
  destruct (properties_of fd) as [| | | | | |props];
    try (split; [intros [r Hr]; discriminate|discriminate]).
  destruct (join_key props) as [| | | |s|l|d] eqn:Hk; cbn [mapping_get bind].
  1-4: split; [reflexivity|intros _; eexists; reflexivity].
  - split; [reflexivity|intros _].
    destruct (mapping !! s) as [m|] eqn:Hm; [|eexists; reflexivity].
    rewrite (set_metadata_regular m props (table_regular s m Hm)). eexists. reflexivity.
  - split; [intros [r Hr]; discriminate|discriminate].
  - split; [intros [r Hr]; discriminate|discriminate].
Qed.

Lemma map_result_ok_iff {A B} (f : A -> result B) (ok : A -> bool) (l : list A) :
  (forall x, (exists y, f x = Ok y) <-> ok x = true) ->
  (exists l', map_result f l = Ok l') <-> forallb ok l = true.
Proof.
  intros Hf. induction l as [|a l IH]; cbn [map_result forallb].
  - split; [reflexivity|intros _; eexists; reflexivity].
  - rewrite andb_true_iff, <- IH, <- Hf. split.
    + intros [l' H]. destruct (f a) as [b|]; [|discriminate]. cbn [bind] in H.
      destruct (map_result f l) as [bs|]; [|discriminate].
      split; eexists; reflexivity.
    + intros [[b Hb] [bs Hbs]]. rewrite Hb. cbn [bind]. rewrite Hbs. eexists. reflexivity.
Qed.

(** X9: on a collection without "features" the enricher returns the
    collection; on a collection with a list of features it returns exactly
    when every feature is an object whose property bag is an object (or a
    false value, null and absent included) and whose join key is not a list
    or an object. Any other feature makes the whole call raise. *)
Theorem enrich_returns_iff_enrichable (g : gmap string pyval) :
  (g !! "features" = None -> enrich_regions_metadata g = Ok g) /\
  (forall feats, g !! "features" = Some (PyList feats) ->
     ((exists g', enrich_regions_metadata g = Ok g') <-> forallb enrichable feats = true)).
Proof.
  unfold enrich_regions_metadata, for_features. split.
  - intros ->. reflexivity.
  - intros feats ->.
    rewrite <- (map_result_ok_iff enrich_feature enrichable feats enrich_feature_ok_iff).
    split.
    + intros [g' H]. destruct (map_result enrich_feature feats) as [l'|]; [|discriminate].
      eexists. reflexivity.
    + intros [l' ->]. eexists. reflexivity.
Qed.

Lemma map_result_first_raise {A B} (f : A -> result B) (pre post : list A) (x : A) (e : exn) :
  (exists pre', map_result f pre = Ok pre') -> f x = Raise e ->
  map_result f (pre ++ x :: post) = Raise e.
Proof.
  intros [pre' Hpre] Hx. revert pre' Hpre.
  induction pre as [|a pre IH]; intros pre' Hpre; cbn [app map_result].
  - rewrite Hx. reflexivity.
  - cbn [map_result] in Hpre. destruct (f a) as [b|]; [|discriminate]. cbn [bind] in *.
    destruct (map_result f pre) as [bs|]; [|discriminate].
    rewrite (IH bs eq_refl). reflexivity.
Qed.

(** X10: the first feature that cannot be enriched decides the exception of
    the call: [AttributeError] for a feature, or a property bag, that is not
    an object (there is no [get] on it), [TypeError] for a join key that is a
    list or an object (it cannot be hashed). The features after it are not
    looked at. *)
Theorem enrich_raises_on_first_bad_feature
    (g : gmap string pyval) (pre post : list pyval) (x : pyval) :
  g !! "features" = Some (PyList (pre ++ x :: post)) ->
  forallb enrichable pre = true ->
  enrichable x = false ->
  exists e,
    enrich_regions_metadata g = Raise e /\
    enrich_feature x = Raise e /\
    (exn_cls e = AttributeError \/ exn_cls e = TypeError) /\
    (forall fd props, x = PyDict fd -> properties_of fd = PyDict props ->
                      exn_cls e = TypeError) /\
    ((forall fd, x <> PyDict fd) -> e = no_attribute x "get" /\ exn_cls e = AttributeError).
Proof.
  intros Hg Hpre Hx.
  assert (He : exists e, enrich_feature x = Raise e /\
                 (exn_cls e = AttributeError \/ exn_cls e = TypeError) /\
                 (forall fd props, x = PyDict fd -> properties_of fd = PyDict props ->
                                   exn_cls e = TypeError) /\
                 ((forall fd, x <> PyDict fd) ->
                  e = no_attribute x "get" /\ exn_cls e = AttributeError)).
  { destruct x as [| | | | | |fd]; cbn [enrich_feature enrichable] in *;
      try (eexists; split; [reflexivity|]; split; [left; reflexivity|];
           split; [discriminate|intros _; split; reflexivity]).
    destruct (properties_of fd) as [| | | | | |props] eqn:Hp;
      try (eexists; split; [reflexivity|]; split; [left; reflexivity|];
           split; [intros fd' props' [= <-]; rewrite Hp; discriminate
                  |intros H; exfalso; eapply H; reflexivity]).
    destruct (join_key props) as [| | | |s|l|d]; try discriminate;
      cbn [mapping_get bind];
      (eexists; split; [reflexivity|]; split; [right; reflexivity|];
       split; [reflexivity|intros H; exfalso; eapply H; reflexivity]). }
  destruct He as (e & He & Hcls & Hty & Hat).
  exists e. split; [|split; [exact He|split; [exact Hcls|split; [exact Hty|exact Hat]]]].
  unfold enrich_regions_metadata, for_features. rewrite Hg.
  rewrite (map_result_first_raise enrich_feature pre post x e); [reflexivity| |exact He].
  apply (map_result_ok_iff enrich_feature enrichable pre enrich_feature_ok_iff). exact Hpre.
Qed.

Lemma enrich_raises_on_first_bad_feature_witness :
  exists e,
    enrich_regions_metadata
      {[ "features" := PyList [ PyDict (named_feature "nom" "Bretagne");
                                PyDict {[ "properties" :=
                                            PyDict {[ "nom" := PyList [PyStr "Corse"] ]} ]} ] ]}
    = Raise e /\ exn_cls e = TypeError.
Proof.
  destruct (enrich_raises_on_first_bad_feature
              {[ "features" := PyList [ PyDict (named_feature "nom" "Bretagne");
                                        PyDict {[ "properties" :=
                                          PyDict {[ "nom" := PyList [PyStr "Corse"] ]} ]} ] ]}
              [ PyDict (named_feature "nom" "Bretagne") ] []
              (PyDict {[ "properties" := PyDict {[ "nom" := PyList [PyStr "Corse"] ]} ]}))
    as (e & He & _ & _ & Hty & _).
  - vm_compute. reflexivity.
  - vm_compute. reflexivity.
  - vm_compute. reflexivity.
  - exists e. split; [exact He|].
    apply (Hty {[ "properties" := PyDict {[ "nom" := PyList [PyStr "Corse"] ]} ]}
               {[ "nom" := PyList [PyStr "Corse"] ]}); [reflexivity|].
    vm_compute. reflexivity.
Defined.

Lemma set_metadata_frame (total : Z) (m : meta) (props props' : gmap string pyval) :
  set_metadata total m props = Ok props' ->
  forall k, k ∉ enrichment_fields -> props' !! k = props !! k.
Proof.
  unfold set_metadata, enrichment_fields. intros H k Hk.
  assert (K : k <> "population" /\ k <> "surface_km2" /\ k <> "densite_km2"
              /\ k <> "part_population_pct").
  { repeat split; intros ->; apply Hk;
      repeat (first [apply list_elem_of_here | apply list_elem_of_further]). }
  destruct K as (K1 & K2 & K3 & K4).
  destruct (float_of_int (surface_km2 m)) as [surf|]; [|discriminate]. cbn [bind] in H.
  destruct (density (population m) surf) as [dens|]; [|discriminate]. cbn [bind] in H.
  destruct (truthy (PyInt total)).
  - destruct (int_truediv (100 * population m) total) as [share|]; [|discriminate].
    cbn [bind] in H. injection H as <-.
    rewrite !lookup_insert_ne by congruence. reflexivity.
  - injection H as <-. rewrite !lookup_insert_ne by congruence. reflexivity.
Qed.

Lemma enrich_feature_frame (feat feat' : pyval) :
  enrich_feature feat = Ok feat' ->
  exists fd fd',
    feat = PyDict fd /\ feat' = PyDict fd' /\
    (forall k, k <> "properties" -> fd' !! k = fd !! k) /\
    (forall k, k ∉ enrichment_fields -> property feat' k = property feat k).
Proof.
  destruct feat as [| | | | | |fd]; try discriminate.
  unfold enrich_feature.
  destruct (properties_of fd) as [| | | | | |props] eqn:Hp; try discriminate.
  destruct (mapping_get (join_key props)) as [found|]; [|discriminate]. cbn [bind].
  destruct (match found with
            | Some m => set_metadata total_pop m props
            | None => Ok props
            end) as [props'|] eqn:Hs; [|discriminate].
  cbn [bind]. intros [= <-].
  exists fd, (<["properties" := PyDict props']> fd).
  split; [reflexivity|]. split; [reflexivity|]. split.
  - intros k Hk. apply lookup_insert_ne. congruence.
  - intros k Hk. rewrite property_insert. unfold property. rewrite Hp.
    destruct found as [m|]; [exact (set_metadata_frame _ _ _ _ Hs k Hk)|].
    injection Hs as <-. reflexivity.
Qed.

(** X11: what an enrichment that returns has not touched. The members of
    the collection other than "features" are as before, the list has as many
    features, in the same order, and each is the feature that was there with,
    at most, its "properties" member replaced; in the property bag every
    field other than population, surface_km2, densite_km2 and
    part_population_pct reads as before, so the name, the code and the
    geometry of a region are never changed. *)
Theorem enrich_changes_only_four_fields (g g' : gmap string pyval) :
  enrich_regions_metadata g = Ok g' ->
  (forall k, k <> "features" -> g' !! k = g !! k) /\
  length (features_of g') = length (features_of g) /\
  (forall i feat, features_of g !! i = Some feat ->
     exists fd fd',
       feat = PyDict fd /\ features_of g' !! i = Some (PyDict fd') /\
       (forall k, k <> "properties" -> fd' !! k = fd !! k) /\
       (forall k, k ∉ enrichment_fields ->
                  property (PyDict fd') k = property (PyDict fd) k)).
Proof.
  unfold enrich_regions_metadata, for_features, features_of.
  destruct (g !! "features") as [v|] eqn:Hf.
  - destruct v as [| | | |s|feats|m]; cbn [py_iter bind]; try discriminate.
    + destruct (map_result enrich_feature (PyStr <$> utf8_chars s)); [|discriminate].
      cbn [bind]. intros [= <-]. rewrite Hf.
      split; [reflexivity|]. split; [reflexivity|]. intros i feat H. discriminate.
    + destruct (map_result enrich_feature feats) as [feats'|] eqn:Hm; [|discriminate].
      cbn [bind]. intros [= <-]. rewrite lookup_insert_eq.
      split; [intros k Hk; apply lookup_insert_ne; congruence|].
      split; [exact (map_result_length _ _ _ Hm)|].
      intros i feat Hi.
      destruct (map_result_lookup _ _ _ _ _ Hm Hi) as (feat' & He & Hi').
      destruct (enrich_feature_frame feat feat' He) as (fd & fd' & -> & -> & H1 & H2).
      exists fd, fd'. repeat split; assumption.
    + destruct (map_result enrich_feature (PyStr <$> (fst <$> map_to_list m)));
        [|discriminate].
      cbn [bind]. intros [= <-]. rewrite Hf.
      split; [reflexivity|]. split; [reflexivity|]. intros i feat H. discriminate.
  - intros [= <-]. rewrite Hf.
    split; [reflexivity|]. split; [reflexivity|]. intros i feat H. discriminate.
Qed.

Lemma enrich_changes_only_four_fields_witness :
  length (features_of match enrich_regions_metadata two_features with
                      | Ok g' => g'
                      | Raise _ => two_features
                      end) = 2%nat.
Proof.
  destruct (enrich_changes_only_four_fields two_features
              match enrich_regions_metadata two_features with
              | Ok g' => g'
              | Raise _ => two_features
              end) as (_ & Hlen & _).
  - vm_compute. reflexivity.
  - rewrite Hlen. reflexivity.
Defined.

(** ** The renderer: styles of enriched features, the colour scale *)

Lemma truthy_dict_lookup (m : gmap string pyval) (k : string) (v : pyval) :
  m !! k = Some v -> truthy (PyDict m) = true.
Proof.
  intros H. cbn [truthy]. destruct (map_to_list m) eqn:E; [|reflexivity].
  apply map_to_list_empty_iff in E. rewrite E, lookup_empty in H. discriminate.
Qed.

(** The property bag [style_function] reads has the lookups of the bag. *)
Lemma style_bag (fd props : gmap string pyval) :
  fd !! "properties" = Some (PyDict props) ->
  exists props', py_or (dict_get fd "properties") (PyDict ∅) = PyDict props' /\
                 forall k, props' !! k = props !! k.
Proof.
  intros H. unfold py_or, dict_get. rewrite H. cbn [default from_option]. unfold id.
  cbn [truthy]. destruct (map_to_list props) eqn:E.
  - exists ∅. split; [reflexivity|]. apply map_to_list_empty_iff in E. rewrite E. reflexivity.
  - exists props. split; reflexivity.
Qed.

(** X12: the style of an enriched feature whose name is in the table is
    decided by the table alone: its fill colour is the colour of the bucket
    of the table's rounded density, one of the six of the legend, whatever
    density the source carried and whatever [float] makes of strings; the
    stroke colour, the weight and the opacity are the fixed ones. *)
Theorem style_of_enriched_feature
    (parse : string -> option float) (fd props : gmap string pyval)
    (name : string) (m : meta) :
  properties_of fd = PyDict props ->
  join_key props = PyStr name ->
  mapping !! name = Some m ->
  exists fd' st,
    enrich_feature (PyDict fd) = Ok (PyDict fd') /\
    style_function parse fd' = Ok st /\
    st !! "fillColor" = Some (PyStr (bucket_color (table_density m))) /\
    bucket_color (table_density m) ∈ bucket_colors /\
    st !! "color" = Some (PyStr "#1F4DBF") /\
    st !! "weight" = Some (PyInt 1) /\
    st !! "fillOpacity" = Some (PyFloat (Float.dec 35 2)).
Proof.
  intros Hp Hk Hm.
  exists (<["properties" := PyDict (with_metadata m props)]> fd).
  destruct (style_bag (<["properties" := PyDict (with_metadata m props)]> fd)
              (with_metadata m props) (lookup_insert_eq _ _ _)) as (bag & Hbag & Hl).
  destruct (with_metadata_lookup m props) as (_ & _ & Hdens & _).
  eexists. split; [exact (enrich_feature_matched fd props name m Hp Hk Hm)|].
  unfold style_function. rewrite Hbag. unfold dict_get at 1. rewrite Hl, Hdens.
  cbn [default from_option]. unfold id. rewrite density_color_float. cbn [bind].
  split; [reflexivity|]. split; [apply lookup_insert_eq|]. split.
  { unfold bucket_color, bucket_colors.
    repeat match goal with |- context [if ?b then _ else _] => destruct b end;
      repeat (first [apply list_elem_of_here | apply list_elem_of_further]). }
  split; [rewrite lookup_insert_ne by discriminate; apply lookup_insert_eq|].
  split; [rewrite !lookup_insert_ne by discriminate; apply lookup_insert_eq|].
  rewrite !lookup_insert_ne by discriminate. apply lookup_insert_eq.
Qed.

Lemma style_of_enriched_feature_witness :
  exists fd' st,
    enrich_feature (PyDict (named_feature "nom" "Bretagne")) = Ok (PyDict fd') /\
    style_function (fun _ => None) fd' = Ok st /\
    st !! "fillColor" = Some (PyStr "#6FB2FF").
Proof.
  destruct (style_of_enriched_feature (fun _ => None) (named_feature "nom" "Bretagne")
              {[ "nom" := PyStr "Bretagne" ]} "Bretagne" (mkMeta 3420000 27208))
    as (fd' & st & He & Hs & Hf & _).
  - vm_compute. reflexivity.
  - vm_compute. reflexivity.
  - vm_compute. reflexivity.
  - exists fd', st. split; [exact He|]. split; [exact Hs|].
    rewrite Hf. vm_compute. reflexivity.
Defined.



(** *** The colour scale is monotone *)

Lemma compare_eq_left (x y z : float) :
  Float.compare x y = Some Eq -> Float.compare x z = Float.compare y z.
Proof.
  unfold Float.compare.
  destruct x as [sx|sx| |sx mx ex], y as [sy|sy| |sy my ey]; simpl;
    try destruct sx; try destruct sy; simpl; try discriminate;
    try (intros _; destruct z as [sz|sz| |sz mz ez]; reflexivity);
    intros H; injection H as H;
    destruct (Z.compare_spec ex ey) as [->| |]; try discriminate;
    (change (Pos.compare_cont Eq mx my) with (Pos.compare mx my) in H);
    try (apply (f_equal CompOpp) in H; rewrite CompOpp_involutive in H; simpl in H);
    apply Pos.compare_eq in H; subst; reflexivity.
Qed.

Lemma leb_ltb_trans (x y z : float) :
  (x <=? y)%flt = true -> (y <? z)%flt = true -> (x <? z)%flt = true.
Proof.
  unfold Float.leb, SFleb. intros Hxy Hyz.
  destruct (SFcompare x y) as [[]|] eqn:E; try discriminate.
  - unfold Float.ltb, SFltb in *.
    pose proof (compare_eq_left x y z E) as H. unfold Float.compare in H.
    rewrite H. exact Hyz.
  - apply (FloatFacts.ltb_trans x y z); [|exact Hyz].
    unfold Float.ltb, SFltb. rewrite E. reflexivity.
Qed.

(** X14: the colour never gets lighter when the density grows: for two
    floats with [d1 <= d2], the colour of [d1] comes no later in the legend
    than the colour of [d2]. *)
Theorem colour_darkens_with_density (parse : string -> option float) (d1 d2 : float) :
  (d1 <=? d2)%flt = true ->
  exists c1 c2,
    density_color parse (PyFloat d1) = Ok c1 /\
    density_color parse (PyFloat d2) = Ok c2 /\
    (color_rank c1 <= color_rank c2)%nat.
Proof.
  intros H. exists (bucket_color d1), (bucket_color d2).
  split; [reflexivity|]. split; [reflexivity|].
  pose proof (leb_ltb_trans d1 d2 (Float.of_Z 50) H) as M1.
  pose proof (leb_ltb_trans d1 d2 (Float.of_Z 100) H) as M2.
  pose proof (leb_ltb_trans d1 d2 (Float.of_Z 150) H) as M3.
  pose proof (leb_ltb_trans d1 d2 (Float.of_Z 250) H) as M4.
  pose proof (leb_ltb_trans d1 d2 (Float.of_Z 500) H) as M5.
  unfold bucket_color.
  destruct (d2 <? Float.of_Z 50)%flt; [rewrite (M1 eq_refl); vm_compute; lia|].
  destruct (d2 <? Float.of_Z 100)%flt;
    [rewrite (M2 eq_refl); destruct (d1 <? Float.of_Z 50)%flt; vm_compute; lia|].
  destruct (d2 <? Float.of_Z 150)%flt;
    [rewrite (M3 eq_refl);
     destruct (d1 <? Float.of_Z 50)%flt, (d1 <? Float.of_Z 100)%flt; vm_compute; lia|].
  destruct (d2 <? Float.of_Z 250)%flt;
    [rewrite (M4 eq_refl);
     destruct (d1 <? Float.of_Z 50)%flt, (d1 <? Float.of_Z 100)%flt,
       (d1 <? Float.of_Z 150)%flt; vm_compute; lia|].
  destruct (d2 <? Float.of_Z 500)%flt;
    [rewrite (M5 eq_refl);
     destruct (d1 <? Float.of_Z 50)%flt, (d1 <? Float.of_Z 100)%flt,
       (d1 <? Float.of_Z 150)%flt, (d1 <? Float.of_Z 250)%flt; vm_compute; lia|].
  destruct (d1 <? Float.of_Z 50)%flt, (d1 <? Float.of_Z 100)%flt,
    (d1 <? Float.of_Z 150)%flt, (d1 <? Float.of_Z 250)%flt, (d1 <? Float.of_Z 500)%flt;
    vm_compute; lia.
Qed.

Lemma colour_darkens_with_density_witness :
  exists c1 c2,
    density_color (fun _ => None) (PyFloat (Float.dec 49999 3)) = Ok c1 /\
    density_color (fun _ => None) (PyFloat (Float.of_Z 50)) = Ok c2 /\
    (color_rank c1 <= color_rank c2)%nat.
Proof.
  apply (colour_darkens_with_density (fun _ => None)). vm_compute. reflexivity.
Defined.

(** ** The click target: one page per name, inside the folder *)

Lemma string_of_list_inj (s t : string) :
  list_ascii_of_string s = list_ascii_of_string t -> s = t.
Proof.
  intros H. rewrite <- (string_of_list_ascii_of_string s),
              <- (string_of_list_ascii_of_string t), H. reflexivity.
Qed.

Lemma append_inj_r (s s' t : string) : s +:+ t = s' +:+ t -> s = s'.
Proof.
  intros H. apply string_of_list_inj.
  apply (f_equal list_ascii_of_string) in H.
  rewrite !list_ascii_of_string_app in H.
  exact (app_inv_tail _ _ _ H).
Qed.

Lemma append_inj_l (p s s' : string) : p +:+ s = p +:+ s' -> s = s'.
Proof.
  induction p as [|c p IH]; cbn [String.append]; [exact (fun H => H)|].
  intros [= H]. exact (IH H).
Qed.

Lemma encodeURIComponent_inj (a b : string) :
  encodeURIComponent a = encodeURIComponent b -> a = b.
Proof.
  intros H. apply (f_equal pct_decode) in H.
  rewrite !pct_decode_encode in H. injection H as H. exact H.
Qed.

(** X15: two different names never get the same click target: the path
    determines the name it was built from. *)
Theorem click_url_injective (a b : string) :
  click_url a = click_url b <-> a = b.
Proof.
  split; [|intros ->; reflexivity].
  unfold click_url. intros H.
  apply append_inj_l in H. apply append_inj_r in H.
  exact (encodeURIComponent_inj a b H).
Qed.

Lemma encodeURIComponent_unreserved (nom : string) :
  forallb uri_unreserved (list_ascii_of_string nom) = true ->
  encodeURIComponent nom = nom.
Proof.
  induction nom as [|c nom IH]; [reflexivity|].
  cbn [list_ascii_of_string forallb encodeURIComponent].
  rewrite andb_true_iff. intros [Hc Hn]. rewrite Hc, (IH Hn). reflexivity.
Qed.

Lemma encodeURIComponent_length (nom : string) :
  (String.length nom <= String.length (encodeURIComponent nom) <= 3 * String.length nom)%nat.
Proof.
  induction nom as [|c nom IH]; [cbn; lia|].
  cbn [encodeURIComponent]. destruct (uri_unreserved c).
  - change (String c EmptyString +:+ encodeURIComponent nom)
      with (String c (encodeURIComponent nom)).
    cbn [String.length]. lia.
  - unfold pct_byte.
    change (String "%" (String ?h (String ?l EmptyString)) +:+ encodeURIComponent nom)
      with (String "%" (String h (String l (encodeURIComponent nom)))).
    cbn [String.length]. lia.
Qed.

(** X16: whatever the name, its part of the click target holds no slash,
    question mark, hash sign or space (nor any byte outside ASCII), so a name
    cannot add a path segment, a query or a fragment to the URL; a name made
    of unreserved characters only is used as it is, and the encoded name is
    between one and three times as long as the name in bytes. *)
Theorem click_url_name_stays_one_segment (nom : string) :
  (forall c, In c (list_ascii_of_string (encodeURIComponent nom)) ->
             c <> "/"%char /\ c <> "?"%char /\ c <> "#"%char /\ c <> " "%char /\
             (N_of_ascii c < 128)%N) /\
  (forallb uri_unreserved (list_ascii_of_string nom) = true ->
   click_url nom = "Régions/" +:+ nom +:+ ".HTML") /\
  (String.length nom <= String.length (encodeURIComponent nom) <= 3 * String.length nom)%nat.
Proof.
  split; [|split].
  - intros c Hc.
    pose proof (encodeURIComponent_safe nom) as H. rewrite forallb_forall in H.
    specialize (H c Hc). clear Hc.
    destruct c as [[] [] [] [] [] [] [] []]; try discriminate H;
      (split; [discriminate|]); (split; [discriminate|]); (split; [discriminate|]);
      (split; [discriminate|]); reflexivity.
  - intros H. unfold click_url. rewrite (encodeURIComponent_unreserved nom H). reflexivity.
  - apply encodeURIComponent_length.
Qed.
